(** * A shallow embedding of the yerttle-create-aws pipeline handlers

    The handlers are Python Lambda functions talking to S3, Transcribe and
    Comprehend.  They are embedded here as computations of a small
    state/exception monad: the state is the object store together with the
    trace of every external call made (each with whether it returned
    normally), the environment gives the Lambda configuration, the clock
    reading of the invocation, and the answers (or exceptions) of the
    external services.  Python's [try]/[except] is [try_except]. *)

From Stdlib Require Import String Ascii List Bool Arith ZArith Lia.
Import ListNotations.
Open Scope string_scope.
Set Warnings "-register-all".

(** ** JSON values (what [json.loads] produces and [json.dumps] accepts) *)

Inductive json : Type :=
| JNull
| JBool (b : bool)
| JNum (z : Z)
| JStr (s : string)
| JArr (l : list json)
| JObj (kvs : list (string * json)).

(** The [json] module, as an interface: [json_loads] returns [None] where
    Python's [json.loads] raises. *)
Class JsonCodec := {
  json_loads : string -> option json;
  json_dumps : json -> string
}.

Fixpoint assoc {A} (k : string) (kvs : list (string * A)) : option A :=
  match kvs with
  | [] => None
  | (k', v) :: r => if String.eqb k k' then Some v else assoc k r
  end.

(** Python truthiness of a JSON value. *)
Definition truthy (j : json) : bool :=
  match j with
  | JNull => false
  | JBool b => b
  | JNum z => negb (Z.eqb z 0)
  | JStr s => negb (String.eqb s "")
  | JArr l => match l with [] => false | _ => true end
  | JObj kvs => match kvs with [] => false | _ => true end
  end.

(** ** Python string helpers *)

Fixpoint starts_with (p s : string) : bool :=
  match p, s with
  | EmptyString, _ => true
  | String c p', String d s' => Ascii.eqb c d && starts_with p' s'
  | String _ _, EmptyString => false
  end.

(** [needle in hay] for two strings. *)
Fixpoint contains (needle hay : string) : bool :=
  starts_with needle hay
  || match hay with
     | EmptyString => false
     | String _ hay' => contains needle hay'
     end.

Fixpoint drop (n : nat) (s : string) : string :=
  match n, s with
  | 0, _ => s
  | S n', String _ s' => drop n' s'
  | S _, EmptyString => EmptyString
  end.

Fixpoint replace_aux (fuel : nat) (old new s : string) : string :=
  match fuel with
  | 0 => s
  | S fuel' =>
      match s with
      | EmptyString => EmptyString
      | String c s' =>
          if starts_with old s
          then new ++ replace_aux fuel' old new (drop (String.length old) s)
          else String c (replace_aux fuel' old new s')
      end
  end.

Fixpoint interleave (new s : string) : string :=
  match s with
  | EmptyString => EmptyString
  | String c s' => String c (new ++ interleave new s')
  end.

(** [s.replace(old, new)]: every non-overlapping occurrence of [old], left
    to right; an empty [old] inserts [new] around every character. *)
Definition py_replace (old new s : string) : string :=
  if String.eqb old "" then new ++ interleave new s
  else replace_aux (String.length s) old new s.

(** [s.split(sep)] for a one-character separator. *)
Fixpoint split_on (sep : ascii) (s : string) : list string :=
  match s with
  | EmptyString => [EmptyString]
  | String c s' =>
      if Ascii.eqb c sep then EmptyString :: split_on sep s'
      else match split_on sep s' with
           | [] => [String c EmptyString]
           | w :: ws => String c w :: ws
           end
  end.

(** ASCII characters for which [str.isspace] holds. *)
Definition is_space (c : ascii) : bool :=
  let n := nat_of_ascii c in (Nat.leb 9 n && Nat.leb n 13) || (Nat.leb 28 n && Nat.leb n 32).

Fixpoint lstrip_with (p : ascii -> bool) (s : string) : string :=
  match s with
  | String c s' => if p c then lstrip_with p s' else s
  | EmptyString => EmptyString
  end.

Definition rev_str (s : string) : string := string_of_list_ascii (rev (list_ascii_of_string s)).

(** [s.endswith(suf)] *)
Definition ends_with (suf s : string) : bool := starts_with (rev_str suf) (rev_str s).

(** [s.strip()] *)
Definition strip (s : string) : string :=
  rev_str (lstrip_with is_space (rev_str (lstrip_with is_space s))).

(** [s.lstrip('/')] *)
Definition lstrip_slash (s : string) : string := lstrip_with (fun c => Ascii.eqb c "/") s.

(** The part of [s] before the first character satisfying [p], and the rest
    from that character on. *)
Fixpoint break_at (p : ascii -> bool) (s : string) : string * string :=
  match s with
  | EmptyString => (EmptyString, EmptyString)
  | String c s' =>
      if p c then (EmptyString, s)
      else let (a, b) := break_at p s' in (String c a, b)
  end.

Definition is_alpha (c : ascii) : bool :=
  let n := nat_of_ascii c in (Nat.leb 65 n && Nat.leb n 90) || (Nat.leb 97 n && Nat.leb n 122).
Definition is_digit (c : ascii) : bool :=
  let n := nat_of_ascii c in Nat.leb 48 n && Nat.leb n 57.
Definition scheme_char (c : ascii) : bool :=
  is_alpha c || is_digit c || Ascii.eqb c "+" || Ascii.eqb c "-" || Ascii.eqb c ".".

Definition valid_scheme (s : string) : bool :=
  match s with
  | EmptyString => false
  | String c _ => is_alpha c && forallb scheme_char (list_ascii_of_string s)
  end.

(** [c in s] *)
Definition has_char (c : ascii) (s : string) : bool :=
  existsb (Ascii.eqb c) (list_ascii_of_string s).

(** [s.replace(c, '')] for every character [c] satisfying [p]. *)
Fixpoint remove_chars (p : ascii -> bool) (s : string) : string :=
  match s with
  | EmptyString => EmptyString
  | String c s' => if p c then remove_chars p s' else String c (remove_chars p s')
  end.

(** [s.isascii()] *)
Definition is_ascii (s : string) : bool :=
  forallb (fun c => Nat.ltb (nat_of_ascii c) 128) (list_ascii_of_string s).

(** [c in string.hexdigits] *)
Definition is_hex (c : ascii) : bool :=
  let n := nat_of_ascii c in
  is_digit c || (Nat.leb 65 n && Nat.leb n 70) || (Nat.leb 97 n && Nat.leb n 102).

(** [str.lower] on a scheme (ASCII letters, digits and [+-.]). *)
Fixpoint scheme_lower (s : string) : string :=
  match s with
  | EmptyString => EmptyString
  | String c s' =>
      let n := nat_of_ascii c in
      String (if Nat.leb 65 n && Nat.leb n 90 then ascii_of_nat (n + 32) else c)
             (scheme_lower s')
  end.

(** The decimal value of a string of ASCII digits. *)
Fixpoint decimal_value_aux (acc : nat) (s : string) : nat :=
  match s with
  | EmptyString => acc
  | String c s' => decimal_value_aux (acc * 10 + (nat_of_ascii c - 48)) s'
  end.

(** *** [ipaddress]: the address checks [urllib.parse] relies on *)

(** [IPv4Address._parse_octet] succeeds. *)
Definition valid_octet (o : string) : bool :=
  match o with
  | EmptyString => false
  | String c _ =>
      if negb (forallb is_digit (list_ascii_of_string o)) then false else
      if Nat.ltb 3 (String.length o) then false else
      (String.eqb o "0" || negb (Ascii.eqb c "0")) && Nat.leb (decimal_value_aux 0 o) 255
  end.

(** [ipaddress.IPv4Address(s)] succeeds. *)
Definition is_ipv4 (s : string) : bool :=
  negb (has_char "/" s)
  && (let octets := split_on "." s in
      Nat.eqb (List.length octets) 4 && forallb valid_octet octets).

(** [IPv6Address._parse_hextet] succeeds. *)
Definition valid_hextet (h : string) : bool :=
  negb (String.eqb h "") && forallb is_hex (list_ascii_of_string h)
  && Nat.leb (String.length h) 4.

(** [IPv6Address._ip_int_from_string(s)] succeeds. *)
Definition ipv6_int_ok (s : string) : bool :=
  if String.eqb s "" then false else
  let parts0 := split_on ":" s in
  if Nat.ltb (List.length parts0) 3 then false else
  let last0 := List.last parts0 EmptyString in
  let parts_opt :=
    if has_char "." last0
    then if is_ipv4 last0 then Some (removelast parts0 ++ ["0"; "0"])%list else None
    else Some parts0 in
  match parts_opt with
  | None => false
  | Some parts =>
      let n := List.length parts in
      if Nat.ltb 9 n then false else
      let first_empty := String.eqb (hd EmptyString parts) "" in
      let last_empty := String.eqb (List.last parts EmptyString) "" in
      match filter (fun i => String.eqb (nth i parts EmptyString) "") (seq 1 (n - 2)) with
      | [] =>
          Nat.eqb n 8 && negb first_empty && negb last_empty
          && forallb valid_hextet parts
      | [i] =>
          let hi := if first_empty then i - 1 else i in
          let lo := if last_empty then n - i - 2 else n - i - 1 in
          negb (first_empty && negb (Nat.eqb i 1))
          && negb (last_empty && negb (Nat.eqb (n - i - 1) 1))
          && Nat.leb (hi + lo) 7
          && forallb valid_hextet (firstn hi parts)
          && forallb valid_hextet (skipn (n - lo) parts)
      | _ => false
      end
  end.

(** [ipaddress.IPv6Address(s)] succeeds. *)
Definition is_ipv6 (s : string) : bool :=
  negb (has_char "/" s)
  && (let (addr, rest) := break_at (fun c => Ascii.eqb c "%") s in
      match rest with
      | EmptyString => ipv6_int_ok addr
      | String _ scope =>
          negb (String.eqb scope "") && negb (has_char "%" scope) && ipv6_int_ok addr
      end).

(** *** [urllib.parse.urlparse] (CPython 3.11 and later) *)

(** [_check_bracketed_host] does not raise: an IPvFuture literal
    ([\Av[a-fA-F0-9]+\..+\Z]) or an IPv6 address that is not IPv4. *)
Definition bracketed_host_ok (hostname : string) : bool :=
  match hostname with
  | String "v" r =>
      let (hx, rest) := break_at (fun c => Ascii.eqb c ".") r in
      negb (String.eqb hx "") && forallb is_hex (list_ascii_of_string hx)
      && match rest with String _ (String _ _) => true | _ => false end
  | _ => negb (is_ipv4 hostname) && is_ipv6 hostname
  end.

(** [_check_bracketed_netloc] does not raise. *)
Definition bracketed_netloc_ok (netloc : string) : bool :=
  let hostname_and_port := List.last (split_on "@" netloc) EmptyString in
  let (before_bracket, br) := break_at (fun c => Ascii.eqb c "[") hostname_and_port in
  match br with
  | String _ bracketed =>
      if negb (String.eqb before_bracket "") then false else
      let (hostname, rb) := break_at (fun c => Ascii.eqb c "]") bracketed in
      let port := match rb with String _ p => p | EmptyString => EmptyString end in
      if negb (String.eqb port "") && negb (starts_with ":" port) then false
      else bracketed_host_ok hostname
  | EmptyString =>
      bracketed_host_ok (fst (break_at (fun c => Ascii.eqb c ":") hostname_and_port))
  end.

(** [_checknetloc] does not raise; [nfkc] is [unicodedata.normalize('NFKC', _)]. *)
Definition netloc_ok (nfkc : string -> string) (netloc : string) : bool :=
  if String.eqb netloc "" || is_ascii netloc then true else
  let n := remove_chars (fun c => Ascii.eqb c "@" || Ascii.eqb c ":"
                                  || Ascii.eqb c "#" || Ascii.eqb c "?") netloc in
  let netloc2 := nfkc n in
  if String.eqb n netloc2 then true
  else negb (existsb (fun c => has_char c netloc2) ["/"; "?"; "#"; "@"; ":"]%char).

(** [_WHATWG_C0_CONTROL_OR_SPACE] *)
Definition c0_control_or_space (c : ascii) : bool := Nat.leb (nat_of_ascii c) 32.

(** [_UNSAFE_URL_BYTES_TO_REMOVE]: tab, CR, LF. *)
Definition unsafe_url_byte (c : ascii) : bool :=
  Ascii.eqb c "009"%char || Ascii.eqb c "013"%char || Ascii.eqb c "010"%char.

(** [urlsplit(u)] as [(scheme, netloc, path)]; [None] where it raises
    [ValueError]. *)
Definition urlsplit (nfkc : string -> string) (u0 : string) : option (string * string * string) :=
  let url := remove_chars unsafe_url_byte (lstrip_with c0_control_or_space u0) in
  let (sch, colon) := break_at (fun c => Ascii.eqb c ":") url in
  let (scheme, url) := match colon with
                       | String _ r => if valid_scheme sch then (scheme_lower sch, r) else ("", url)
                       | EmptyString => ("", url)
                       end in
  let path_of r := fst (break_at (fun c => Ascii.eqb c "?" || Ascii.eqb c "#") r) in
  let (netloc, url) :=
    match url with
    | String "/" (String "/" r) =>
        break_at (fun c => Ascii.eqb c "/" || Ascii.eqb c "?" || Ascii.eqb c "#") r
    | _ => (EmptyString, url)
    end in
  if xorb (has_char "[" netloc) (has_char "]" netloc) then None else
  if has_char "[" netloc && has_char "]" netloc && negb (bracketed_netloc_ok netloc) then None else
  if negb (netloc_ok nfkc netloc) then None else
  Some (scheme, netloc, path_of url).

Definition uses_params : list string :=
  [""; "ftp"; "hdl"; "prospero"; "http"; "imap"; "https"; "shttp"; "rtsp"; "rtspu";
   "sip"; "sips"; "mms"; "sftp"; "tel"].

(** The [url] part of [_splitparams(url)] for a [url] containing [;]: what
    precedes the first [;] after the last [/]. *)
Definition splitparams (url : string) : string :=
  let segs := split_on "/" url in
  String.concat "/" (removelast segs
                     ++ [fst (break_at (fun c => Ascii.eqb c ";") (List.last segs EmptyString))])%list.

(** [urlparse(u)], the two components the handlers use: [(netloc, path)];
    [None] where it raises [ValueError]. *)
Definition urlparse (nfkc : string -> string) (u : string) : option (string * string) :=
  match urlsplit nfkc u with
  | None => None
  | Some (scheme, netloc, path) =>
      Some (netloc, if existsb (String.eqb scheme) uses_params && has_char ";" path
                    then splitparams path else path)
  end.

(** ** Store, trace, environment and the handler monad *)

(** An S3 object body: a JSON document written with [json.dumps] (reading
    it back with [json.loads] gives the same value), plain text, or a gzip
    container whose decompressed payload is given. *)
Inductive obj : Type :=
| OJson (j : json)
| OText (s : string)
| OGzip (payload : string).

Definition s3key : Type := (string * string)%type.  (* (bucket, key) *)

Definition key_eqb (a b : s3key) : bool :=
  String.eqb (fst a) (fst b) && String.eqb (snd a) (snd b).

(** The store holds its objects in the order it lists them; [put] replaces
    an object in place or appends a new one. *)
Definition store : Type := list (s3key * obj).

Fixpoint st_find (k : s3key) (st : store) : option obj :=
  match st with
  | [] => None
  | (k', o) :: r => if key_eqb k k' then Some o else st_find k r
  end.

Fixpoint st_put (k : s3key) (o : obj) (st : store) : store :=
  match st with
  | [] => [(k, o)]
  | (k', o') :: r => if key_eqb k k' then (k, o) :: r else (k', o') :: st_put k o r
  end.

Definition st_list (bucket prefix : string) (st : store) : list string :=
  map (fun e => snd (fst e))
      (filter (fun e => String.eqb (fst (fst e)) bucket && starts_with prefix (snd (fst e))) st).

(** External calls. *)
Inductive op : Type :=
| S3Head (bucket key : string)
| S3Get (bucket key : string)
| S3List (bucket prefix : string)
| S3Put (bucket key : string) (o : obj)
| Call (api : string) (request : json).

Inductive exn : Type :=
| ClientError (what : string)
| BadRequestException
| PyError (what : string).

Inductive res (A : Type) : Type :=
| Ok (a : A)
| Raise (e : exn).
Arguments Ok {A} a.
Arguments Raise {A} e.

Definition is_ok {A} (r : res A) : bool := match r with Ok _ => true | Raise _ => false end.

Record env : Type := mkEnv {
  bucket_name : string;                   (* BUCKET_NAME *)
  s3_fails : op -> bool;                  (* this S3 request raises *)
  service : string -> json -> res json;   (* Transcribe / Comprehend API *)
  now_stamp : string;                     (* utcnow().strftime('%Y%m%d-%H%M%S') *)
  now_iso : string;                       (* utcnow().isoformat() *)
  unicode_nfkc : string -> string         (* unicodedata.normalize('NFKC', _) *)
}.

Record world : Type := mkWorld {
  objects : store;
  trace : list (op * bool)
}.

Definition M (A : Type) : Type := env -> world -> res A * world.

Definition ret {A} (a : A) : M A := fun _ w => (Ok a, w).

Definition bind {A B} (m : M A) (k : A -> M B) : M B :=
  fun e w => match m e w with
             | (Ok a, w') => k a e w'
             | (Raise x, w') => (Raise x, w')
             end.

Notation "x <- m ;; k" := (bind m (fun x => k))
  (at level 100, m at next level, right associativity).
Notation "m ;;; k" := (bind m (fun _ => k))
  (at level 100, right associativity).

Definition raise {A} (x : exn) : M A := fun _ w => (Raise x, w).

Definition try_except {A} (m : M A) (handler : exn -> M A) : M A :=
  fun e w => match m e w with
             | (Raise x, w') => handler x e w'
             | r => r
             end.

Definition ask : M env := fun e w => (Ok e, w).

Definition log (w : world) (o : op) (ok : bool) : world :=
  mkWorld (objects w) (trace w ++ [(o, ok)]).

(** One S3 request: it raises when the environment says so, otherwise
    [run] acts on the store. *)
Definition s3 {A} (o : op) (run : store -> res A * store) : M A :=
  fun e w =>
    if s3_fails e o then (Raise (ClientError "s3"), log w o false)
    else let (r, st') := run (objects w) in
         (r, mkWorld st' (trace w ++ [(o, is_ok r)])).

Definition head_object (b k : string) : M unit :=
  s3 (S3Head b k) (fun st => match st_find (b, k) st with
                             | Some _ => (Ok tt, st)
                             | None => (Raise (ClientError "404"), st)
                             end).

Definition get_object (b k : string) : M obj :=
  s3 (S3Get b k) (fun st => match st_find (b, k) st with
                            | Some o => (Ok o, st)
                            | None => (Raise (ClientError "NoSuchKey"), st)
                            end).

Definition list_objects (b p : string) : M (list string) :=
  s3 (S3List b p) (fun st => (Ok (st_list b p st), st)).

Definition put_object (b k : string) (o : obj) : M unit :=
  s3 (S3Put b k o) (fun st => (Ok tt, st_put (b, k) o st)).

(** A call to a Transcribe or Comprehend API. *)
Definition call (api : string) (req : json) : M json :=
  fun e w => let r := service e api req in (r, log w (Call api req) (is_ok r)).

(** [d.get(k, default)]; raises on a non-dict. *)
Definition py_get (d : json) (k : string) (dflt : json) : M json :=
  match d with
  | JObj kvs => ret (match assoc k kvs with Some v => v | None => dflt end)
  | _ => raise (PyError "AttributeError: get")
  end.

(** A value used where the code calls a [str] method. *)
Definition as_str (j : json) : M string :=
  match j with
  | JStr s => ret s
  | _ => raise (PyError "AttributeError: str")
  end.

(** [needle in x] for a [str] needle. *)
Definition py_in (needle : string) (x : json) : M bool :=
  match x with
  | JStr s => ret (contains needle s)
  | JArr l => ret (existsb (fun j => match j with JStr s => String.eqb s needle | _ => false end) l)
  | JObj kvs => ret (existsb (fun kv => String.eqb (fst kv) needle) kvs)
  | _ => raise (PyError "TypeError: in")
  end.

Record response : Type := mkResponse { statusCode : nat; body : json }.

Definition SENTIMENT_PREFIX : string := "sentiment/".

(** Store keys of one analysis unit (the layout shared by the router and
    the completion join). *)
Inductive facet : Type := Sentiment | Entities | KeyPhrases.

Definition facet_tag (f : facet) : string :=
  match f with Sentiment => "sentiment" | Entities => "entities" | KeyPhrases => "keyphrases" end.

Definition marker_key (analysis_id : string) (f : facet) : string :=
  SENTIMENT_PREFIX ++ analysis_id ++ "-" ++ facet_tag f ++ "-result.json".
Definition metadata_key (analysis_id : string) : string :=
  SENTIMENT_PREFIX ++ analysis_id ++ "-metadata.json".
Definition analysis_key (analysis_id : string) : string :=
  SENTIMENT_PREFIX ++ analysis_id ++ "-analysis.json".
Definition input_key (analysis_id : string) : string :=
  "comprehend-input/" ++ analysis_id ++ ".txt".

(** The external job name given to each facet's job by the router. *)
Definition job_prefix (f : facet) : string :=
  match f with Sentiment => "sentiment-" | Entities => "entities-" | KeyPhrases => "key-phrases-" end.

(** * comprehend_job_completion/app.py: the completion join *)
Module Completion.
Section Completion.
Context `{JsonCodec}.

Definition describe_api (f : facet) : string :=
  match f with
  | Sentiment => "describe_sentiment_detection_job"
  | Entities => "describe_entities_detection_job"
  | KeyPhrases => "describe_key_phrases_detection_job"
  end.

Definition properties_field (f : facet) : string :=
  match f with
  | Sentiment => "SentimentDetectionJobProperties"
  | Entities => "EntitiesDetectionJobProperties"
  | KeyPhrases => "KeyPhrasesDetectionJobProperties"
  end.

(** The bytes of an object as [obj['Body'].read()], after the attempted
    [gzip.decompress] (a failure leaves the content as it was). *)
Definition decompressed_text (o : obj) : string :=
  match o with
  | OGzip p => p
  | OText s => s
  | OJson j => json_dumps j
  end.

(** [for line in lines: if line.strip(): results.append(json.loads(line))];
    [None] where a [json.loads] raises. *)
Fixpoint parse_records (lines : list string) : option (list json) :=
  match lines with
  | [] => Some []
  | l :: ls =>
      if String.eqb (strip l) "" then parse_records ls
      else match json_loads l, parse_records ls with
           | Some j, Some rs => Some (j :: rs)
           | _, _ => None
           end
  end.

(** [results[0] if len(results) == 1 else results] *)
Definition unwrap_singleton (results : list json) : json :=
  match results with
  | [r] => r
  | _ => JArr results
  end.

Definition is_output_file (k : string) : bool :=
  ends_with ".out" k || ends_with ".gz" k.

Definition read_comprehend_output (s3_uri : json) : M json :=
  try_except
    (u <- as_str s3_uri ;;
     e <- ask ;;
     match urlparse (unicode_nfkc e) u with
     | None => raise (PyError "ValueError")
     | Some (bucket, path) =>
     let prefix := lstrip_slash path in
     keys <- list_objects bucket prefix ;;
     match filter is_output_file keys with
     | [] => ret (JObj [])
     | output_key :: _ =>
         o <- get_object bucket output_key ;;
         let lines := split_on "010"%char (strip (decompressed_text o)) in
         match parse_records lines with
         | Some results => ret (unwrap_singleton results)
         | None => raise (PyError "JSONDecodeError")
         end
     end
     end)
    (fun _ => ret (JObj [])).

(** [json.loads(body.decode('utf-8'))] of a stored object; the compressed
    bytes of a gzip container are not UTF-8 text. *)
Definition loads_obj (o : obj) : M json :=
  match o with
  | OJson j => ret j
  | OText s => match json_loads s with
               | Some j => ret j
               | None => raise (PyError "JSONDecodeError")
               end
  | OGzip _ => raise (PyError "UnicodeDecodeError")
  end.

Definition read_json_from_s3 (b k : string) : M json :=
  try_except (o <- get_object b k ;; loads_obj o) (fun _ => ret (JObj [])).

Definition object_exists (b k : string) : M bool :=
  try_except (head_object b k ;;; ret true) (fun _ => ret false).

(** [process_sentiment_job], [process_entities_job] and
    [process_key_phrases_job] differ only in the describe API, the
    properties field, the job-name prefix and the marker suffix; one
    definition parameterised by the facet embeds the three.  It returns the
    analysis id it decoded and the result dict. *)
Definition process_facet_job (f : facet) (job_id : json) : M (string * json) :=
  e <- ask ;;
  resp <- call (describe_api f) (JObj [("JobId", job_id)]) ;;
  job <- py_get resp (properties_field f) (JObj []) ;;
  odc <- py_get job "OutputDataConfig" (JObj []) ;;
  output_location <- py_get odc "S3Uri" (JStr "") ;;
  job_name_j <- py_get job "JobName" (JStr "") ;;
  results <- read_comprehend_output output_location ;;
  job_name <- as_str job_name_j ;;
  let analysis_id := py_replace (job_prefix f) "" job_name in
  let output_key := marker_key analysis_id f in
  put_object (bucket_name e) output_key (OJson results) ;;;
  ret (analysis_id,
       JObj [("message", JStr "job processed successfully");
             ("jobId", job_id);
             ("jobName", JStr job_name);
             ("analysisId", JStr analysis_id);
             ("outputLocation", JStr ("s3://" ++ bucket_name e ++ "/" ++ output_key))]).

(** The AggregateResult body. *)
Definition aggregate_body (analysis_id iso : string)
    (sentiment_data entities_data keyphrases_data metadata tf tl tb : json) : json :=
  JObj [("analysisId", JStr analysis_id);
        ("timestamp", JStr (iso ++ "Z"));
        ("analysisType", JStr "asynchronous");
        ("transcriptionFile", tf);
        ("textLength", tl);
        ("textBytes", tb);
        ("sentiment", sentiment_data);
        ("entities", entities_data);
        ("keyPhrases", keyphrases_data);
        ("metadata", metadata)].

Definition aggregate_results_if_complete (analysis_id : string) : M bool :=
  try_except
    (if String.eqb analysis_id "" then ret false else
     e <- ask ;;
     let b := bucket_name e in
     let sentiment_key := marker_key analysis_id Sentiment in
     let entities_key := marker_key analysis_id Entities in
     let keyphrases_key := marker_key analysis_id KeyPhrases in
     sentiment_exists <- object_exists b sentiment_key ;;
     entities_exists <- object_exists b entities_key ;;
     keyphrases_exists <- object_exists b keyphrases_key ;;
     if negb (sentiment_exists && entities_exists && keyphrases_exists) then ret false else
     sentiment_data <- read_json_from_s3 b sentiment_key ;;
     entities_data <- read_json_from_s3 b entities_key ;;
     keyphrases_data <- read_json_from_s3 b keyphrases_key ;;
     meta_exists <- object_exists b (metadata_key analysis_id) ;;
     metadata <- (if meta_exists then read_json_from_s3 b (metadata_key analysis_id)
                  else ret (JObj [])) ;;
     tf <- py_get metadata "transcriptionFile" (JStr "") ;;
     tl <- py_get metadata "textLength" (JNum 0) ;;
     tb <- py_get metadata "textBytes" (JNum 0) ;;
     put_object b (analysis_key analysis_id)
       (OJson (aggregate_body analysis_id (now_iso e) sentiment_data entities_data
                 keyphrases_data metadata tf tl tb)) ;;;
     ret true)
    (fun _ => ret false).

Definition err_response (code : nat) (msg : string) : response :=
  mkResponse code (JObj [("error", JStr msg)]).

(** Which job type an event names: [None] is the unknown-type branch. *)
Definition event_facet (event_type : json) : M (option facet) :=
  s <- py_in "Sentiment" event_type ;;
  if s then ret (Some Sentiment) else
  en <- py_in "Entities" event_type ;;
  if en then ret (Some Entities) else
  k <- py_in "Key Phrases" event_type ;;
  if k then ret (Some KeyPhrases) else ret None.

Definition lambda_handler (event : json) : M response :=
  try_except
    (detail <- py_get event "detail" (JObj []) ;;
     job_id <- py_get detail "JobId" (JStr "") ;;
     job_status <- py_get detail "JobStatus" (JStr "") ;;
     event_type <- py_get event "detail-type" (JStr "") ;;
     if negb (truthy job_id) then ret (err_response 400 "Invalid event structure") else
     if negb (match job_status with JStr s => String.eqb s "COMPLETED" | _ => false end)
     then ret (mkResponse 200 (JObj [("message", JStr "no action taken"); ("jobId", job_id)]))
     else
     ft <- event_facet event_type ;;
     match ft with
     | None => ret (err_response 400 "Unknown job type")
     | Some f =>
         r <- process_facet_job f job_id ;;
         try_except (aggregate_results_if_complete (fst r) ;;; ret tt) (fun _ => ret tt) ;;;
         ret (mkResponse 200 (snd r))
     end)
    (fun _ => ret (err_response 500 "Internal error")).

End Completion.
End Completion.

(** ** Helpers shared by the router and the relay *)

Definition hex_val (c : ascii) : option nat :=
  let n := nat_of_ascii c in
  if Nat.leb 48 n && Nat.leb n 57 then Some (n - 48)
  else if Nat.leb 65 n && Nat.leb n 70 then Some (n - 55)
  else if Nat.leb 97 n && Nat.leb n 102 then Some (n - 87)
  else None.

(** [urllib.parse.unquote_plus]: [+] is a space and [%XX] the byte [XX];
    a [%] not followed by two hex digits stays as it is. *)
Fixpoint unquote_plus (s : string) : string :=
  match s with
  | EmptyString => EmptyString
  | String c s' =>
      if Ascii.eqb c "+" then String " " (unquote_plus s')
      else if Ascii.eqb c "%" then
        match s' with
        | String h1 (String h2 s'') =>
            match hex_val h1, hex_val h2 with
            | Some a, Some b => String (ascii_of_nat (16 * a + b)) (unquote_plus s'')
            | _, _ => String c (unquote_plus s')
            end
        | _ => String c (unquote_plus s')
        end
      else String c (unquote_plus s')
  end.

(** [x[0]] *)
Definition py_index0 (x : json) : M json :=
  match x with
  | JArr (y :: _) => ret y
  | JStr (String c _) => ret (JStr (String c EmptyString))
  | _ => raise (PyError "IndexError/KeyError")
  end.

(** [d[k]] *)
Definition py_getitem (d : json) (k : string) : M json :=
  match d with
  | JObj kvs => match assoc k kvs with
                | Some v => ret v
                | None => raise (PyError "KeyError")
                end
  | _ => raise (PyError "TypeError: subscript")
  end.

(** Number of characters of a UTF-8 encoded string: the bytes that are not
    continuation bytes. *)
Definition utf8_chars (s : string) : nat :=
  List.length (filter (fun c => negb (Nat.eqb (nat_of_ascii c / 64) 2)) (list_ascii_of_string s)).

(** [len(x)] *)
Definition py_len (x : json) : M nat :=
  match x with
  | JArr l => ret (List.length l)
  | JObj kvs => ret (List.length kvs)
  | JStr s => ret (utf8_chars s)
  | _ => raise (PyError "TypeError: len")
  end.

(** * sentiment_analysis/app.py: the analysis router *)
Module Router.
Section Router.
Context `{JsonCodec}.

Definition SYNC_API_LIMIT_BYTES : nat := 5000.
Definition LANGUAGE_CODE : string := "en-US".        (* default of LANGUAGE_CODE *)
Definition COMPREHEND_ROLE_ARN : json := JNull.      (* os.environ.get, unset *)

(** [object_key.split('/')[-1].rsplit('.', 1)[0]] *)
Definition base_name (object_key : string) : string :=
  let last := List.last (split_on "/" object_key) EmptyString in
  let parts := split_on "." last in
  match parts with
  | [_] => last
  | _ => String.concat "." (removelast parts)
  end.

Definition detect_request (text : string) : json :=
  JObj [("Text", JStr text); ("LanguageCode", JStr LANGUAGE_CODE)].

Definition process_synchronous_analysis (text analysis_id transcription_key bucket : string)
    : M response :=
  try_except
    (e <- ask ;;
     sentiment_response <- call "detect_sentiment" (detect_request text) ;;
     entities_response <- call "detect_entities" (detect_request text) ;;
     key_phrases_response <- call "detect_key_phrases" (detect_request text) ;;
     sent <- py_get sentiment_response "Sentiment" JNull ;;
     score <- py_get sentiment_response "SentimentScore" (JObj []) ;;
     ents <- py_get entities_response "Entities" (JArr []) ;;
     nents <- py_len ents ;;
     kps <- py_get key_phrases_response "KeyPhrases" (JArr []) ;;
     nkps <- py_len kps ;;
     let analysis_results :=
       JObj [("analysisId", JStr analysis_id);
             ("transcriptionFile", JStr ("s3://" ++ bucket ++ "/" ++ transcription_key));
             ("timestamp", JStr (now_iso e ++ "Z"));
             ("textLength", JNum (Z.of_nat (utf8_chars text)));
             ("textBytes", JNum (Z.of_nat (String.length text)));
             ("analysisType", JStr "synchronous");
             ("sentiment", JObj [("Sentiment", sent); ("SentimentScore", score)]);
             ("entities", JObj [("Entities", ents); ("Count", JNum (Z.of_nat nents))]);
             ("keyPhrases", JObj [("KeyPhrases", kps); ("Count", JNum (Z.of_nat nkps))]);
             ("metadata", JObj [("languageCode", JStr LANGUAGE_CODE);
                                ("processingTimestamp", JStr (now_iso e ++ "Z"))])] in
     let output_key := analysis_key analysis_id in
     put_object (bucket_name e) output_key (OJson analysis_results) ;;;
     ret (mkResponse 200
            (JObj [("message", JStr "Synchronous analysis completed successfully");
                   ("analysisId", JStr analysis_id);
                   ("outputLocation", JStr ("s3://" ++ bucket_name e ++ "/" ++ output_key));
                   ("sentiment", sent);
                   ("entityCount", JNum (Z.of_nat nents));
                   ("keyPhraseCount", JNum (Z.of_nat nkps))])))
    (fun _ => ret (Completion.err_response 500 "Synchronous analysis failed")).

Definition start_api (f : facet) : string :=
  match f with
  | Sentiment => "start_sentiment_detection_job"
  | Entities => "start_entities_detection_job"
  | KeyPhrases => "start_key_phrases_detection_job"
  end.

Definition job_ids_field (f : facet) : string :=
  match f with Sentiment => "sentiment" | Entities => "entities" | KeyPhrases => "keyPhrases" end.

Definition start_request (f : facet) (analysis_id input_uri output_uri : string) : json :=
  JObj [("InputDataConfig", JObj [("S3Uri", JStr input_uri); ("InputFormat", JStr "ONE_DOC_PER_FILE")]);
        ("OutputDataConfig", JObj [("S3Uri", JStr output_uri)]);
        ("DataAccessRoleArn", COMPREHEND_ROLE_ARN);
        ("JobName", JStr (job_prefix f ++ analysis_id));
        ("LanguageCode", JStr (hd EmptyString (split_on "-" LANGUAGE_CODE)))].

(** One [try: ... job_ids[...] = response['JobId'] except: log] block. *)
Definition start_job (f : facet) (analysis_id input_uri output_uri : string)
    : M (list (string * json)) :=
  try_except
    (r <- call (start_api f) (start_request f analysis_id input_uri output_uri) ;;
     jid <- py_getitem r "JobId" ;;
     ret [(job_ids_field f, jid)])
    (fun _ => ret []).

Definition process_asynchronous_analysis (text analysis_id transcription_key bucket : string)
    : M response :=
  try_except
    (e <- ask ;;
     put_object (bucket_name e) (input_key analysis_id) (OText text) ;;;
     let input_s3_uri := "s3://" ++ bucket_name e ++ "/" ++ input_key analysis_id in
     let output_s3_uri := "s3://" ++ bucket_name e ++ "/comprehend-output/" ++ analysis_id ++ "/" in
     js <- start_job Sentiment analysis_id input_s3_uri output_s3_uri ;;
     je <- start_job Entities analysis_id input_s3_uri output_s3_uri ;;
     jk <- start_job KeyPhrases analysis_id input_s3_uri output_s3_uri ;;
     let job_ids := JObj (js ++ je ++ jk) in
     let async_metadata :=
       JObj [("analysisId", JStr analysis_id);
             ("transcriptionFile", JStr ("s3://" ++ bucket ++ "/" ++ transcription_key));
             ("timestamp", JStr (now_iso e ++ "Z"));
             ("analysisType", JStr "asynchronous");
             ("textLength", JNum (Z.of_nat (utf8_chars text)));
             ("textBytes", JNum (Z.of_nat (String.length text)));
             ("inputLocation", JStr input_s3_uri);
             ("outputLocation", JStr output_s3_uri);
             ("jobIds", job_ids);
             ("status", JStr "IN_PROGRESS")] in
     put_object (bucket_name e) (metadata_key analysis_id) (OJson async_metadata) ;;;
     ret (mkResponse 202
            (JObj [("message", JStr "Asynchronous analysis jobs started successfully");
                   ("analysisId", JStr analysis_id);
                   ("jobIds", job_ids);
                   ("metadataLocation", JStr ("s3://" ++ bucket_name e ++ "/" ++ metadata_key analysis_id));
                   ("status", JStr "IN_PROGRESS")])))
    (fun _ => ret (Completion.err_response 500 "Asynchronous analysis failed")).

(** The transcript text of a parsed transcription document:
    [data.get('results', {}).get('transcripts', [{}])[0].get('transcript', '')] *)
Definition transcript_of (data : json) : M json :=
  results <- py_get data "results" (JObj []) ;;
  transcripts <- py_get results "transcripts" (JArr [JObj []]) ;;
  first <- py_index0 transcripts ;;
  py_get first "transcript" (JStr "").

Definition lambda_handler (event : json) : M response :=
  try_except
    (detail <- py_get event "detail" (JObj []) ;;
     bkt <- py_get detail "bucket" (JObj []) ;;
     bucket_j <- py_get bkt "name" (JStr "") ;;
     objd <- py_get detail "object" (JObj []) ;;
     key_j <- py_get objd "key" (JStr "") ;;
     key_raw <- as_str key_j ;;
     let object_key := unquote_plus key_raw in
     if negb (truthy bucket_j) || String.eqb object_key "" then
       ret (Completion.err_response 400 "Invalid event structure") else
     read <- try_except
               (b <- as_str bucket_j ;;
                o <- get_object b object_key ;;
                d <- Completion.loads_obj o ;;
                ret (inr d))
               (fun _ => ret (inl (Completion.err_response 404 "Failed to read transcription"))) ;;
     match read with
     | inl resp => ret resp
     | inr transcription_data =>
         text_j <- transcript_of transcription_data ;;
         if negb (truthy text_j) then ret (Completion.err_response 400 "No transcript text found") else
         text <- as_str text_j ;;
         bucket <- as_str bucket_j ;;
         e <- ask ;;
         let text_bytes := String.length text in
         let analysis_id := base_name object_key ++ "-" ++ now_stamp e in
         if Nat.leb text_bytes SYNC_API_LIMIT_BYTES
         then process_synchronous_analysis text analysis_id object_key bucket
         else process_asynchronous_analysis text analysis_id object_key bucket
     end)
    (fun _ => ret (Completion.err_response 500 "Internal error")).

End Router.
End Router.

(** * process_transcription/app.py: the transcript relay *)
Module Relay.
Section Relay.
Context `{JsonCodec}.

(** Whether [transcript_text[:200]] evaluates (a [str] or a [list]). *)
Definition sliceable (x : json) : bool :=
  match x with JStr _ | JArr _ => true | _ => false end.

Fixpoint spaces_to_blank (s : string) : string :=
  match s with
  | EmptyString => EmptyString
  | String c s' => String (if is_space c then " "%char else c) (spaces_to_blank s')
  end.

(** [len(transcript_text.split()) if transcript_text else 0] *)
Definition word_count (text : json) : M nat :=
  if truthy text then
    s <- as_str text ;;
    ret (List.length (filter (fun w => negb (String.eqb w ""))
                             (split_on " " (spaces_to_blank s))))
  else ret 0.

Definition lambda_handler (event : json) : M response :=
  try_except
    (detail <- py_get event "detail" (JObj []) ;;
     job_name_j <- py_get detail "TranscriptionJobName" (JStr "") ;;
     job_status <- py_get detail "TranscriptionJobStatus" (JStr "") ;;
     if negb (truthy job_name_j) then ret (Completion.err_response 400 "Invalid event structure") else
     if negb (match job_status with JStr s => String.eqb s "COMPLETED" | _ => false end)
     then ret (mkResponse 200 (JObj [("message", JStr "no action taken"); ("jobName", job_name_j)]))
     else
     (* boto3 refuses a non-[str] job name before sending the request *)
     job_name <- as_str job_name_j ;;
     response <- call "get_transcription_job" (JObj [("TranscriptionJobName", JStr job_name)]) ;;
     job_details <- py_get response "TranscriptionJob" (JObj []) ;;
     tr <- py_get job_details "Transcript" (JObj []) ;;
     uri_j <- py_get tr "TranscriptFileUri" (JStr "") ;;
     media <- py_get job_details "Media" (JObj []) ;;
     media_uri <- py_get media "MediaFileUri" (JStr "") ;;
     if negb (truthy uri_j) then ret (Completion.err_response 404 "Transcript file URI not found") else
     uri <- as_str uri_j ;;
     e <- ask ;;
     match urlparse (unicode_nfkc e) uri with
     | None => raise (PyError "ValueError")
     | Some (transcript_bucket, path) =>
     let transcript_key := lstrip_slash path in
     verified <- try_except (head_object transcript_bucket transcript_key ;;; ret true)
                            (fun _ => ret false) ;;
     if negb verified then ret (Completion.err_response 404 "Transcript file not found") else
     try_except
       (o <- get_object transcript_bucket transcript_key ;;
        transcript_content <- Completion.loads_obj o ;;
        text <- Router.transcript_of transcript_content ;;
        wc <- word_count text ;;
        (if sliceable text then ret tt else raise (PyError "TypeError: slice")) ;;;
        e <- ask ;;
        let destination_key := "transcriptions/" ++ job_name ++ ".json" in
        try_except (put_object (bucket_name e) destination_key (OJson transcript_content))
                   (fun _ => ret tt) ;;;
        ret (mkResponse 200
               (JObj [("message", JStr "Transcription processed successfully");
                      ("jobName", JStr job_name);
                      ("transcriptLocation", JStr ("s3://" ++ transcript_bucket ++ "/" ++ transcript_key));
                      ("copiedTo", JStr ("s3://" ++ bucket_name e ++ "/" ++ destination_key));
                      ("mediaUri", media_uri);
                      ("wordCount", JNum (Z.of_nat wc))])))
       (fun _ => ret (mkResponse 200
                        (JObj [("message", JStr "Transcription completed but content read failed");
                               ("jobName", JStr job_name)])))
     end)
    (fun x => match x with
              | BadRequestException => ret (Completion.err_response 400 "Bad request")
              | _ => ret (Completion.err_response 500 "Internal error")
              end).

End Relay.
End Relay.

(** * start_transcription/app.py: the transcription starter *)
Module Start.
Section Start.
Context `{JsonCodec}.

Definition LANGUAGE_CODE : string := "en-US".        (* default of LANGUAGE_CODE *)

(** [str.lower] on one character: the ASCII capitals; no other character
    lowers to one of the characters of [.m4a]. *)
Definition ascii_lower (c : ascii) : ascii :=
  let n := nat_of_ascii c in
  if Nat.leb 65 n && Nat.leb n 90 then ascii_of_nat (n + 32) else c.

Fixpoint lower (s : string) : string :=
  match s with
  | EmptyString => EmptyString
  | String c s' => String (ascii_lower c) (lower s')
  end.

Definition start_request (job_name media_uri bucket output_key : string) : json :=
  JObj [("TranscriptionJobName", JStr job_name);
        ("Media", JObj [("MediaFileUri", JStr media_uri)]);
        ("MediaFormat", JStr "m4a");
        ("LanguageCode", JStr LANGUAGE_CODE);
        ("OutputBucketName", JStr bucket);
        ("OutputKey", JStr output_key)].

(** boto3's modelled [ConflictException] is a [ClientError] carrying that
    error code. *)
Definition lambda_handler (event : json) : M response :=
  try_except
    (detail <- py_get event "detail" (JObj []) ;;
     bkt <- py_get detail "bucket" (JObj []) ;;
     bucket_j <- py_get bkt "name" (JStr "") ;;
     objd <- py_get detail "object" (JObj []) ;;
     key_j <- py_get objd "key" (JStr "") ;;
     key_raw <- as_str key_j ;;
     let object_key := unquote_plus key_raw in
     if negb (truthy bucket_j) || String.eqb object_key "" then
       ret (Completion.err_response 400 "Invalid event structure") else
     if negb (ends_with ".m4a" (lower object_key)) then
       ret (Completion.err_response 400 "File must be .m4a format") else
     found <- try_except (b <- as_str bucket_j ;; head_object b object_key ;;; ret true)
                         (fun _ => ret false) ;;
     if negb found then ret (Completion.err_response 404 "File not found") else
     bucket <- as_str bucket_j ;;
     e <- ask ;;
     let file_name := Router.base_name object_key in
     let job_name := "yerttle-" ++ file_name ++ "-" ++ now_stamp e in
     let media_uri := "s3://" ++ bucket ++ "/" ++ object_key in
     let output_key := "transcriptions/" ++ file_name ++ "-" ++ now_stamp e ++ ".json" in
     response <- call "start_transcription_job" (start_request job_name media_uri bucket output_key) ;;
     py_getitem response "TranscriptionJob" ;;;
     ret (mkResponse 200
            (JObj [("message", JStr "Transcription job started successfully");
                   ("jobName", JStr job_name);
                   ("mediaUri", JStr media_uri);
                   ("outputLocation", JStr ("s3://" ++ bucket ++ "/" ++ output_key))])))
    (fun x => match x with
              | BadRequestException => ret (Completion.err_response 400 "Bad request")
              | ClientError what =>
                  if String.eqb what "ConflictException"
                  then ret (Completion.err_response 409 "Job already exists")
                  else ret (Completion.err_response 500 "Internal error")
              | _ => ret (Completion.err_response 500 "Internal error")
              end).

End Start.
End Start.

(** * Concrete inputs for the runs below *)

(** A [json] module instance that agrees with Python's [json.loads] on the
    lines ["1"] and ["[1]"]; other documents of the runs are stored as
    parsed JSON. *)
Definition sample_loads (s : string) : option json :=
  if String.eqb s "1" then Some (JNum 1)
  else if String.eqb s "[1]" then Some (JArr [JNum 1])
  else None.

#[export] Instance sample_codec : JsonCodec :=
  {| json_loads := sample_loads; json_dumps := fun _ => "{}" |}.

(** [n] characters [a]: a transcript of [n] UTF-8 bytes. *)
Fixpoint text_of_length (n : nat) : string :=
  match n with 0 => EmptyString | S n' => String "a" (text_of_length n') end.

(** A Unicode database for the sample runs, whose URIs are ASCII: NFKC
    leaves ASCII text unchanged, and [_checknetloc] consults it on non-ASCII
    netlocs only. *)
Definition ascii_nfkc (s : string) : string := s.

Definition no_service : string -> json -> res json := fun _ _ => Raise (ClientError "unavailable").

Definition env_ok (svc : string -> json -> res json) (iso : string) : env :=
  mkEnv "yerttle-tours" (fun _ => false) svc "20240101-120005" iso ascii_nfkc.

Definition empty_world (st : store) : world := mkWorld st [].

(** The reply of a Comprehend describe-job API for a job with the given
    output location and name. *)
Definition describe_reply (f : facet) (output_uri : json) (job_name : string) : json :=
  JObj [(Completion.properties_field f,
         JObj [("OutputDataConfig", JObj [("S3Uri", output_uri)]);
               ("JobName", JStr job_name)])].

(** An analysis id of a transcript of the audio file [my-sentiment-talk.m4a]. *)
Definition talk_id : string := "yerttle-my-sentiment-talk-20240101-120000-20240101-120005".

Definition output_uri : json := JStr "s3://yerttle-tours/comprehend-output/unit/".

(** A Comprehend that describes the three jobs of the analysis unit [id],
    named as the router names them. *)
Definition unit_service (id : string) (api : string) (req : json) : res json :=
  if String.eqb api (Completion.describe_api Sentiment)
  then Ok (describe_reply Sentiment output_uri (job_prefix Sentiment ++ id))
  else if String.eqb api (Completion.describe_api Entities)
  then Ok (describe_reply Entities output_uri (job_prefix Entities ++ id))
  else if String.eqb api (Completion.describe_api KeyPhrases)
  then Ok (describe_reply KeyPhrases output_uri (job_prefix KeyPhrases ++ id))
  else Raise (ClientError "unexpected request").

Definition ep_id : string := "episode1-20240101-120000-20240101-120005".

(** A store holding one engine output file with the given text. *)
Definition output_store (text : string) : store :=
  [(("yerttle-tours", "comprehend-output/unit/123-SENTIMENT/output/part.out"), OText text)].

(** A transcription document as Transcribe writes it. *)
Definition transcript_doc (text : string) : json :=
  JObj [("results", JObj [("transcripts", JArr [JObj [("transcript", JStr text)]])])].

(** The upload of [transcriptions/episode1.json] to the pipeline bucket. *)
Definition upload_key : string := "transcriptions/episode1.json".

Definition upload_bucket : list (string * json) := [("name", JStr "yerttle-tours")].
Definition upload_object : list (string * json) := [("key", JStr upload_key)].
Definition upload_detail : list (string * json) :=
  [("bucket", JObj upload_bucket); ("object", JObj upload_object)].
Definition upload_fields : list (string * json) := [("detail", JObj upload_detail)].

Definition upload_store (text : string) : store :=
  [(("yerttle-tours", upload_key), OJson (transcript_doc text))].

(** A Comprehend whose detect APIs all answer with one fixed reply. *)
Definition detect_reply : list (string * json) :=
  [("Sentiment", JStr "POSITIVE"); ("SentimentScore", JObj []);
   ("Entities", JArr []); ("KeyPhrases", JArr [])].

Definition detect_service (api : string) (req : json) : res json := Ok (JObj detect_reply).

(** A Comprehend that starts every job it is asked to start. *)
Definition start_service (api : string) (req : json) : res json :=
  Ok (JObj [("JobId", JStr "job-1")]).

(** An S3 that refuses every [put_object]. *)
Definition puts_fail (o : op) : bool :=
  match o with S3Put _ _ _ => true | _ => false end.

Definition env_puts_fail (svc : string -> json -> res json) (iso : string) : env :=
  mkEnv "yerttle-tours" puts_fail svc "20240101-120005" iso ascii_nfkc.

(** A store holding a Transcribe transcript. *)
Definition relay_store : store :=
  [(("transcribe-out", "job-1.json"), OJson (transcript_doc "hello world"))].

Definition relay_fields (status name : string) : list (string * json) :=
  [("detail", JObj [("TranscriptionJobName", JStr name); ("TranscriptionJobStatus", JStr status)])].

(** Stores of the unit [ep_id]: two of its three ResultMarkers, all three,
    and an output prefix holding no [.out] or [.gz] file. *)
Definition two_markers_store : store :=
  [(("yerttle-tours", marker_key ep_id Sentiment), OJson (JNum 1));
   (("yerttle-tours", marker_key ep_id Entities), OJson (JNum 1))].

Definition markers_store : store :=
  (two_markers_store ++ [(("yerttle-tours", marker_key ep_id KeyPhrases), OJson (JNum 1))])%list.

Definition manifest_store : store :=
  [(("yerttle-tours", "comprehend-output/unit/123-SENTIMENT/output/manifest.json"), OText "1")].

Definition unit_env : env := env_ok (unit_service ep_id) "2024-01-01T12:00:00".

(** An audio upload, and Transcribe replies to a job start: accepted (the
    job is queued) or refused because the job name is taken. *)
Definition audio_store : store := [(("yerttle-tours", "episode1.m4a"), OText "audio")].

Definition transcribe_service (api : string) (req : json) : res json :=
  Ok (JObj [("TranscriptionJob", JObj [("TranscriptionJobStatus", JStr "IN_PROGRESS")])]).

Definition conflict_service (api : string) (req : json) : res json :=
  Raise (ClientError "ConflictException").

(** An S3 that refuses every write of a Metadata record. *)
Definition metadata_puts_fail (o : op) : bool :=
  match o with S3Put _ k _ => ends_with "-metadata.json" k | _ => false end.

Definition env_metadata_fail (svc : string -> json -> res json) (iso : string) : env :=
  mkEnv "yerttle-tours" metadata_puts_fail svc "20240101-120005" iso ascii_nfkc.

(** A Transcribe job record naming both the transcript and the media file. *)
Definition relay_transcript : list (string * json) :=
  [("TranscriptFileUri", JStr "s3://transcribe-out/job-1.json")].
Definition relay_media : list (string * json) :=
  [("MediaFileUri", JStr "s3://yerttle-tours/episode1.m4a")].
Definition relay_job : list (string * json) :=
  [("Transcript", JObj relay_transcript); ("Media", JObj relay_media)].

Definition relay_media_service (api : string) (req : json) : res json :=
  Ok (JObj [("TranscriptionJob", JObj relay_job)]).

(** ** Reference values for the proofs *)

(** The value [read_comprehend_output] returns, as a function of the
    configuration and the store contents. *)
Definition read_result `{JsonCodec} (s3_uri : json) (e : env) (st : store) : json :=
  match s3_uri with
  | JStr u =>
      match urlparse (unicode_nfkc e) u with
      | None => JObj []
      | Some (bucket, path) =>
      let prefix := lstrip_slash path in
      if s3_fails e (S3List bucket prefix) then JObj [] else
      match filter Completion.is_output_file (st_list bucket prefix st) with
      | [] => JObj []
      | k :: _ =>
          if s3_fails e (S3Get bucket k) then JObj [] else
          match st_find (bucket, k) st with
          | None => JObj []
          | Some o =>
              match Completion.parse_records
                      (split_on "010"%char (strip (Completion.decompressed_text o))) with
              | Some rs => Completion.unwrap_singleton rs
              | None => JObj []
              end
          end
      end
      end
  | _ => JObj []
  end.

(** A field of a JSON dict. *)
Definition json_field (j : json) (k : string) : option json :=
  match j with JObj kvs => assoc k kvs | _ => None end.

Definition is_put_op (x : op * bool) : bool :=
  match fst x with S3Put _ _ _ => true | _ => false end.

(** An AggregateResult written by the inline path. *)
Definition inline_record (o : obj) : Prop :=
  exists j, o = OJson j /\ json_field j "analysisType" = Some (JStr "synchronous").

(** What a run of the inline path, started in world [w], may do: only the
    three detect calls and puts of an inline AggregateResult at
    [analysis_key analysis_id], at most one put, status 200 exactly with the
    AggregateResult stored, 500 with the store unchanged. *)
Definition inline_outcome (e : env) (analysis_id : string) (w : world)
    (out : res response * world) : Prop :=
  match out with
  | (Ok r, w') =>
      exists t, trace w' = (trace w ++ t)%list
      /\ Forall (fun x => match fst x with
                         | Call api _ => In api ["detect_sentiment"; "detect_entities"; "detect_key_phrases"]
                         | S3Put b k o => b = bucket_name e /\ k = analysis_key analysis_id /\ inline_record o
                         | _ => False
                         end) t
      /\ List.length (filter is_put_op t) <= 1
      /\ (statusCode r = 200 \/ statusCode r = 500)
      /\ (statusCode r = 200 ->
          exists o, inline_record o
                    /\ objects w' = st_put (bucket_name e, analysis_key analysis_id) o (objects w))
      /\ (statusCode r = 500 -> objects w' = objects w)
  | (Raise _, _) => False
  end.

(** What a run of the job path, started in world [w], does when its two
    store writes succeed: it stages the text, attempts the three job starts
    in order, writes one Metadata record and answers 202. *)
Definition job_outcome (e : env) (text analysis_id : string) (w : world)
    (out : res response * world) : Prop :=
  let b := bucket_name e in
  let input_uri := "s3://" ++ b ++ "/" ++ input_key analysis_id in
  let output_uri := "s3://" ++ b ++ "/comprehend-output/" ++ analysis_id ++ "/" in
  match out with
  | (Ok r, w') =>
      statusCode r = 202
      /\ exists meta t,
        trace w' = (trace w ++ t)%list
        /\ map fst t = [S3Put b (input_key analysis_id) (OText text);
                        Call (Router.start_api Sentiment)
                             (Router.start_request Sentiment analysis_id input_uri output_uri);
                        Call (Router.start_api Entities)
                             (Router.start_request Entities analysis_id input_uri output_uri);
                        Call (Router.start_api KeyPhrases)
                             (Router.start_request KeyPhrases analysis_id input_uri output_uri);
                        S3Put b (metadata_key analysis_id) (OJson meta)]
        /\ json_field meta "analysisType" = Some (JStr "asynchronous")
        /\ objects w' = st_put (b, metadata_key analysis_id) (OJson meta)
                          (st_put (b, input_key analysis_id) (OText text) (objects w))
  | (Raise _, _) => False
  end.

Definition is_some {A} (x : option A) : bool := match x with Some _ => true | None => false end.

(** The characters of an S3 bucket name: lowercase ASCII letters, digits,
    [.] and [-]. *)
Definition s3_bucket_char (c : ascii) : bool :=
  let n := nat_of_ascii c in
  (Nat.leb 97 n && Nat.leb n 122) || is_digit c || Ascii.eqb c "." || Ascii.eqb c "-".

(** [json.loads] of a stored object as [read_json_from_s3] returns it: the
    empty dict where the object is missing or does not parse. *)
Definition stored_json `{JsonCodec} (st : store) (k : s3key) : json :=
  match st_find k st with
  | Some (OJson j) => j
  | Some (OText s) => match json_loads s with Some j => j | None => JObj [] end
  | _ => JObj []
  end.

(** [d.get(k, default)] on the fields of a dict. *)
Definition field_or (kvs : list (string * json)) (k : string) (d : json) : json :=
  match assoc k kvs with Some v => v | None => d end.

Definition markers_present (e : env) (analysis_id : string) (st : store) : bool :=
  is_some (st_find (bucket_name e, marker_key analysis_id Sentiment) st)
  && is_some (st_find (bucket_name e, marker_key analysis_id Entities) st)
  && is_some (st_find (bucket_name e, marker_key analysis_id KeyPhrases) st).

Definition meta_value `{JsonCodec} (e : env) (analysis_id : string) (st : store) : json :=
  if is_some (st_find (bucket_name e, metadata_key analysis_id) st)
  then stored_json st (bucket_name e, metadata_key analysis_id) else JObj [].

Definition aggregate_value `{JsonCodec} (e : env) (analysis_id : string) (st : store)
    (kvs : list (string * json)) : json :=
  Completion.aggregate_body analysis_id (now_iso e)
    (stored_json st (bucket_name e, marker_key analysis_id Sentiment))
    (stored_json st (bucket_name e, marker_key analysis_id Entities))
    (stored_json st (bucket_name e, marker_key analysis_id KeyPhrases))
    (JObj kvs) (field_or kvs "transcriptionFile" (JStr "")) (field_or kvs "textLength" (JNum 0))
    (field_or kvs "textBytes" (JNum 0)).

(** The store after [aggregate_results_if_complete], when no S3 request
    fails. *)
Definition agg_step `{JsonCodec} (e : env) (analysis_id : string) (st : store) : store :=
  if String.eqb analysis_id "" then st else
  if markers_present e analysis_id st then
    match meta_value e analysis_id st with
    | JObj kvs => st_put (bucket_name e, analysis_key analysis_id)
                         (OJson (aggregate_value e analysis_id st kvs)) st
    | _ => st
    end
  else st.

(** The same deployment, invoked when the clock reads [iso]. *)
Definition at_time (e : env) (iso : string) : env :=
  mkEnv (bucket_name e) (s3_fails e) (service e) (now_stamp e) iso (unicode_nfkc e).

Definition facet_event_type (f : facet) : string :=
  match f with
  | Sentiment => "Comprehend Sentiment Detection Job State Change"
  | Entities => "Comprehend Entities Detection Job State Change"
  | KeyPhrases => "Comprehend Key Phrases Detection Job State Change"
  end.

(** The completion event of a facet job. *)
Definition completion_event (f : facet) (job_id : string) : json :=
  JObj [("detail-type", JStr (facet_event_type f));
        ("detail", JObj [("JobId", JStr job_id); ("JobStatus", JStr "COMPLETED")])].

(** The AggregateResult of a unit whose three facet jobs wrote their
    outputs at [uri f] in the store [st], built at clock [iso]. *)
Definition join_result `{JsonCodec} (e : env) (analysis_id : string) (uri : facet -> json)
    (iso : string) (st : store) : json :=
  let kvs := match meta_value e analysis_id st with JObj kvs => kvs | _ => [] end in
  Completion.aggregate_body analysis_id iso
    (read_result (uri Sentiment) e st) (read_result (uri Entities) e st)
    (read_result (uri KeyPhrases) e st)
    (JObj kvs) (field_or kvs "transcriptionFile" (JStr "")) (field_or kvs "textLength" (JNum 0))
    (field_or kvs "textBytes" (JNum 0)).

(** The world after the completion events of the three facet jobs of one
    unit (all with job id [job-1]) were handled in the order [f1], [f2],
    [f3], at the clock readings [iso1], [iso2], [iso3]. *)
Definition run_three `{JsonCodec} (e : env) (f1 f2 f3 : facet) (iso1 iso2 iso3 : string)
    (w0 : world) : world :=
  let w1 := snd (Completion.lambda_handler (completion_event f1 "job-1") (at_time e iso1) w0) in
  let w2 := snd (Completion.lambda_handler (completion_event f2 "job-1") (at_time e iso2) w1) in
  snd (Completion.lambda_handler (completion_event f3 "job-1") (at_time e iso3) w2).

(** ** Store footprints of a computation run in the environment [e] *)

(** Every run relates the store before and the store after by [R]. *)
Definition preserves (R : store -> store -> Prop) {A} (e : env) (m : M A) : Prop :=
  forall w, R (objects w) (objects (snd (m e w))).

(** Every run either returns a value satisfying [ok] or relates the stores
    before and after by [R]; a run that raises always does the latter. *)
Definition kept_unless (R : store -> store -> Prop) {A} (ok : A -> Prop) (e : env) (m : M A)
    : Prop :=
  forall w, match m e w with
            | (Ok a, w') => ok a \/ R (objects w) (objects w')
            | (Raise _, w') => R (objects w) (objects w')
            end.

(** The two stores agree on every key outside [P]. *)
Definition same_outside (P : s3key -> Prop) (st st' : store) : Prop :=
  forall k, ~ P k -> st_find k st' = st_find k st.

(** A key of the pipeline bucket under the given prefix. *)
Definition pipeline_key (e : env) (prefix : string) (k : s3key) : Prop :=
  fst k = bucket_name e /\ starts_with prefix (snd k) = true.

(** The EventBridge event of an object created in bucket [b] under the
    (URL-encoded) key [k]. *)
Definition s3_event (b k : string) : json :=
  JObj [("detail", JObj [("bucket", JObj [("name", JStr b)]); ("object", JObj [("key", JStr k)])])].

(** The entry [job_ids] receives from the start of the facet's job: the
    returned [JobId], or nothing when the start raises or returns none. *)
Definition started_id (e : env) (f : facet) (analysis_id input_uri output_uri : string)
    : list (string * json) :=
  match service e (Router.start_api f) (Router.start_request f analysis_id input_uri output_uri) with
  | Ok (JObj kvs) => match assoc "JobId" kvs with
                     | Some j => [(Router.job_ids_field f, j)]
                     | None => []
                     end
  | _ => []
  end.

(** * Proofs *)

(** ** The monad: rewriting through [bind] and [try_except] *)

Lemma bind_ok {A B} (m : M A) (k : A -> M B) e w a w' :
  m e w = (Ok a, w') -> bind m k e w = k a e w'.
Proof. intros Hm. unfold bind. now rewrite Hm. Qed.

Lemma bind_raise {A B} (m : M A) (k : A -> M B) e w x w' :
  m e w = (Raise x, w') -> bind m k e w = (Raise x, w').
Proof. intros Hm. unfold bind. now rewrite Hm. Qed.

Lemma try_ok {A} (m : M A) h e w a w' :
  m e w = (Ok a, w') -> try_except m h e w = (Ok a, w').
Proof. intros Hm. unfold try_except. now rewrite Hm. Qed.

Lemma try_raise {A} (m : M A) h e w x w' :
  m e w = (Raise x, w') -> try_except m h e w = h x e w'.
Proof. intros Hm. unfold try_except. now rewrite Hm. Qed.

Lemma log_objects w o b : objects (log w o b) = objects w.
Proof. reflexivity. Qed.

Lemma log_trace w o b : trace (log w o b) = (trace w ++ [(o, b)])%list.
Proof. reflexivity. Qed.

Lemma object_exists_spec `{JsonCodec} e w b k :
  Completion.object_exists b k e w
  = (Ok (negb (s3_fails e (S3Head b k)) && is_some (st_find (b, k) (objects w))),
     log w (S3Head b k) (negb (s3_fails e (S3Head b k)) && is_some (st_find (b, k) (objects w)))).
Proof.
  unfold Completion.object_exists, try_except, bind, head_object, s3, ret.
  destruct (s3_fails e (S3Head b k)); simpl; [reflexivity|].
  destruct (st_find (b, k) (objects w)); reflexivity.
Qed.

Lemma put_object_ok e w b k o :
  s3_fails e (S3Put b k o) = false ->
  put_object b k o e w = (Ok tt, mkWorld (st_put (b, k) o (objects w)) (trace w ++ [(S3Put b k o, true)])%list).
Proof. intros Hf. unfold put_object, s3. now rewrite Hf. Qed.

Lemma put_object_fail e w b k o :
  s3_fails e (S3Put b k o) = true ->
  put_object b k o e w = (Raise (ClientError "s3"), log w (S3Put b k o) false).
Proof. intros Hf. unfold put_object, s3. now rewrite Hf. Qed.

(** ** Computations whose every normal return satisfies a predicate *)

Definition only {A} (P : A -> Prop) (m : M A) : Prop :=
  forall e w, match fst (m e w) with Ok a => P a | Raise _ => True end.

Lemma only_ret {A} (P : A -> Prop) a : P a -> only P (ret a).
Proof. intros Ha e w. exact Ha. Qed.

Lemma only_bind {A B} (P : B -> Prop) (m : M A) (k : A -> M B) :
  (forall a, only P (k a)) -> only P (bind m k).
Proof.
  intros Hk e w. unfold bind. destruct (m e w) as [[a|x] w']; [apply Hk | exact I].
Qed.

Lemma try_total {A} (P : A -> Prop) (m : M A) h e w :
  only P m -> (forall x e' w', exists a w'', h x e' w' = (Ok a, w'') /\ P a) ->
  exists a w', try_except m h e w = (Ok a, w') /\ P a.
Proof.
  intros Hm Hh. unfold try_except. specialize (Hm e w).
  destruct (m e w) as [[a|x] w'].
  - exists a, w'. split; [reflexivity | exact Hm].
  - apply Hh.
Qed.

Lemma try_ok_ex {A} (P : A -> Prop) (m : M A) h e w :
  (exists a w', m e w = (Ok a, w') /\ P a) ->
  exists a w', try_except m h e w = (Ok a, w') /\ P a.
Proof. intros (a & w' & Hm & Ha). exists a, w'. unfold try_except. now rewrite Hm. Qed.

Lemma bind_ok_ex {A B} (P : B -> Prop) (m : M A) (k : A -> M B) e w a w' :
  m e w = (Ok a, w') ->
  (exists b w'', k a e w' = (Ok b, w'') /\ P b) ->
  exists b w'', bind m k e w = (Ok b, w'') /\ P b.
Proof. intros Hm Hk. unfold bind. now rewrite Hm. Qed.

Lemma try_handler_total {A} (m : M A) h e w :
  (forall x e' w', exists a w'', h x e' w' = (Ok a, w'')) ->
  exists a w', try_except m h e w = (Ok a, w').
Proof.
  intros Hh. unfold try_except. destruct (m e w) as [[a|x] w']; [eauto | apply Hh].
Qed.

(** ** Store keys *)

Lemma string_of_list_ascii_app l1 l2 :
  string_of_list_ascii (l1 ++ l2) = (string_of_list_ascii l1 ++ string_of_list_ascii l2)%string.
Proof. induction l1 as [|c l1 IH]; cbn; [reflexivity | now rewrite IH]. Qed.

Lemma list_ascii_of_string_app s1 s2 :
  list_ascii_of_string (s1 ++ s2) = (list_ascii_of_string s1 ++ list_ascii_of_string s2)%list.
Proof. induction s1 as [|c s1 IH]; cbn; [reflexivity | now rewrite IH]. Qed.

Lemma rev_str_app s1 s2 : rev_str (s1 ++ s2) = (rev_str s2 ++ rev_str s1)%string.
Proof.
  unfold rev_str. now rewrite list_ascii_of_string_app, rev_app_distr, string_of_list_ascii_app.
Qed.

Ltac keys_differ :=
  let Heq := fresh "Heq" in
  intros Heq; apply (f_equal rev_str) in Heq;
  unfold marker_key, metadata_key, analysis_key, input_key, SENTIMENT_PREFIX in Heq;
  rewrite ?rev_str_app in Heq; cbn in Heq; discriminate Heq.

Lemma marker_analysis_keys_differ x y f : marker_key x f <> analysis_key y.
Proof. destruct f; keys_differ. Qed.

Lemma marker_metadata_keys_differ x y f : marker_key x f <> metadata_key y.
Proof. destruct f; keys_differ. Qed.

Lemma metadata_analysis_keys_differ x y : metadata_key x <> analysis_key y.
Proof. keys_differ. Qed.

Lemma input_keys_differ x y : input_key x <> marker_key y Sentiment /\ input_key x <> marker_key y Entities
  /\ input_key x <> marker_key y KeyPhrases /\ input_key x <> analysis_key y /\ input_key x <> metadata_key y.
Proof. repeat split; intros Heq; discriminate Heq. Qed.

Lemma st_find_put_other k k' o st : k <> k' -> st_find k (st_put k' o st) = st_find k st.
Proof.
  intros Hne. induction st as [|[k'' o''] st IH]; cbn.
  - unfold key_eqb. destruct k as [b1 n1], k' as [b2 n2]; cbn.
    destruct (String.eqb_spec b1 b2), (String.eqb_spec n1 n2); subst; cbn; try reflexivity.
    exfalso; now apply Hne.
  - destruct (key_eqb k' k'') eqn:E; cbn.
    + unfold key_eqb in *. apply andb_true_iff in E as [E1 E2].
      apply String.eqb_eq in E1, E2. destruct k as [b1 n1], k' as [b2 n2], k'' as [b3 n3]; cbn in *.
      subst. destruct (String.eqb_spec b1 b3), (String.eqb_spec n1 n3); subst; cbn; try reflexivity.
      exfalso; now apply Hne.
    + destruct (key_eqb k k''); [reflexivity | exact IH].
Qed.

(** ** The router *)

Ltac run_cases :=
  repeat (cbv beta iota zeta;
    match goal with
    | |- context [match service ?e ?a ?q with _ => _ end] => destruct (service e a q)
    | |- context [match s3_fails ?e ?o with _ => _ end] => destruct (s3_fails e o)
    | |- context [match assoc ?k ?l with _ => _ end] => destruct (assoc k l)
    | |- context [match ?x with _ => _ end] => is_var x; destruct x
    end).

Lemma sync_total `{JsonCodec} text id key bkt e w :
  exists r w', Router.process_synchronous_analysis text id key bkt e w = (Ok r, w').
Proof. apply try_handler_total. intros; do 2 eexists; reflexivity. Qed.

Lemma async_total `{JsonCodec} text id key bkt e w :
  exists r w', Router.process_asynchronous_analysis text id key bkt e w = (Ok r, w').
Proof. apply try_handler_total. intros; do 2 eexists; reflexivity. Qed.

Lemma inline_run `{JsonCodec} text id key bkt e w :
  inline_outcome e id w (Router.process_synchronous_analysis text id key bkt e w).
Proof.
  unfold Router.process_synchronous_analysis, inline_outcome, try_except, bind, ask, call,
    py_get, py_len, put_object, s3, ret, raise, log, is_ok.
  run_cases;
    (eexists; split; [cbn [trace]; rewrite <- ?app_assoc; cbn [app]; reflexivity|]);
    cbn [statusCode objects];
    (split; [repeat (apply Forall_cons; [cbn; first [tauto | (split; [reflexivity | split; [reflexivity | eexists; split; reflexivity]])] |]); apply Forall_nil |]);
    (split; [cbn; lia|]);
    (split; [first [left; reflexivity | right; reflexivity] |]);
    (split; intros Hc; cbn in Hc; first [discriminate Hc | reflexivity | (eexists; split; [|reflexivity]; eexists; split; reflexivity)]).
Qed.

Lemma job_run `{JsonCodec} text id key bkt e w :
  s3_fails e (S3Put (bucket_name e) (input_key id) (OText text)) = false ->
  (forall o, s3_fails e (S3Put (bucket_name e) (metadata_key id) o) = false) ->
  job_outcome e text id w (Router.process_asynchronous_analysis text id key bkt e w).
Proof.
  intros Hin Hmeta.
  unfold Router.process_asynchronous_analysis, job_outcome, Router.start_job, try_except, bind,
    ask, call, py_getitem, put_object, s3, ret, raise, log, is_ok.
  cbv beta iota zeta. rewrite Hin.
  repeat (cbv beta iota zeta;
    first [ rewrite Hmeta
          | match goal with
            | |- context [match service ?e ?a ?q with _ => _ end] => destruct (service e a q)
            | |- context [match assoc ?k ?l with _ => _ end] => destruct (assoc k l)
            | |- context [match ?x with _ => _ end] => is_var x; destruct x
            end ]);
    (split; [reflexivity|]); do 2 eexists;
    (split; [cbn [trace]; rewrite <- ?app_assoc; cbn [app]; reflexivity|]);
    (split; [reflexivity|]); (split; [reflexivity|]); reflexivity.
Qed.

(** The router reads the uploaded transcript and hands its text to the
    inline path or to the job path, by the UTF-8 byte length of the text. *)
Lemma router_dispatch `{JsonCodec} kvs dk bk okv b rawkey e w doc text :
  assoc "detail" kvs = Some (JObj dk) ->
  assoc "bucket" dk = Some (JObj bk) -> assoc "name" bk = Some (JStr b) -> b <> "" ->
  assoc "object" dk = Some (JObj okv) -> assoc "key" okv = Some (JStr rawkey) ->
  unquote_plus rawkey <> "" ->
  s3_fails e (S3Get b (unquote_plus rawkey)) = false ->
  st_find (b, unquote_plus rawkey) (objects w) = Some (OJson doc) ->
  (forall e' w', Router.transcript_of doc e' w' = (Ok (JStr text), w')) ->
  text <> "" ->
  Router.lambda_handler (JObj kvs) e w
  = (if Nat.leb (String.length text) Router.SYNC_API_LIMIT_BYTES
     then Router.process_synchronous_analysis text
            (Router.base_name (unquote_plus rawkey) ++ "-" ++ now_stamp e) (unquote_plus rawkey) b
     else Router.process_asynchronous_analysis text
            (Router.base_name (unquote_plus rawkey) ++ "-" ++ now_stamp e) (unquote_plus rawkey) b)
      e (log w (S3Get b (unquote_plus rawkey)) true).
Proof.
  intros Hd Hbk Hn Hbne Hok Hk Hkne Hget Hfind Htr Htne.
  pose proof (proj2 (String.eqb_neq _ _) Hbne) as Hb'.
  pose proof (proj2 (String.eqb_neq _ _) Hkne) as Hk'.
  pose proof (proj2 (String.eqb_neq _ _) Htne) as Ht'.
  unfold Router.lambda_handler.
  repeat (cbv beta iota zeta delta [try_except bind py_get ret as_str ask get_object s3
                                   Completion.loads_obj truthy negb orb];
          first [rewrite Hd | rewrite Hbk | rewrite Hn | rewrite Hok | rewrite Hk | rewrite Hb'
                | rewrite Hk' | rewrite Hget | rewrite Hfind | rewrite Htr | rewrite Ht']).
  unfold log. cbn [is_ok].
  destruct (Nat.leb (String.length text) Router.SYNC_API_LIMIT_BYTES).
  - match goal with
    | |- context [Router.process_synchronous_analysis ?a ?b ?c ?d ?e ?w] =>
        destruct (sync_total a b c d e w) as (r & w' & Hr); rewrite Hr
    end.
    reflexivity.
  - match goal with
    | |- context [Router.process_asynchronous_analysis ?a ?b ?c ?d ?e ?w] =>
        destruct (async_total a b c d e w) as (r & w' & Hr); rewrite Hr
    end.
    reflexivity.
Qed.


Lemma async_staging_fails `{JsonCodec} text id key bkt e w :
  s3_fails e (S3Put (bucket_name e) (input_key id) (OText text)) = true ->
  Router.process_asynchronous_analysis text id key bkt e w
  = (Ok (Completion.err_response 500 "Asynchronous analysis failed"),
     log w (S3Put (bucket_name e) (input_key id) (OText text)) false).
Proof.
  intros Hf. unfold Router.process_asynchronous_analysis, try_except, bind, ask, put_object, s3.
  rewrite Hf. reflexivity.
Qed.


Lemma read_comprehend_output_spec `{JsonCodec} : forall uri e w,
  exists t, Completion.read_comprehend_output uri e w
            = (Ok (read_result uri e (objects w)), mkWorld (objects w) (trace w ++ t)%list).
Proof.
  intros uri e [st tr].
  unfold Completion.read_comprehend_output, read_result, try_except, bind, as_str, ask, ret, raise.
  destruct uri; cbn [objects trace];
    try (exists []; rewrite app_nil_r; reflexivity).
  destruct (urlparse (unicode_nfkc e) s) as [[b path]|];
    [|exists []; rewrite app_nil_r; reflexivity].
  unfold list_objects, s3.
  destruct (s3_fails e (S3List b (lstrip_slash path))).
  - exists [(S3List b (lstrip_slash path), false)]. reflexivity.
  - cbn [is_ok objects trace].
    destruct (filter Completion.is_output_file (st_list b (lstrip_slash path) st)) as [|k ks].
    + eexists; reflexivity.
    + unfold get_object, s3. destruct (s3_fails e (S3Get b k)).
      * eexists. unfold log. cbn. rewrite <- app_assoc. reflexivity.
      * cbn. destruct (st_find (b, k) st) as [o|];
          [ destruct (Completion.parse_records _) |];
          eexists; cbn; rewrite <- ?app_assoc; reflexivity.
Qed.

Lemma st_find_put_same k o st : st_find k (st_put k o st) = Some o.
Proof.
  induction st as [|[k' o'] st IH]; cbn.
  - unfold key_eqb. now rewrite !String.eqb_refl.
  - destruct (key_eqb k k') eqn:E; cbn.
    + unfold key_eqb. now rewrite !String.eqb_refl.
    + now rewrite E.
Qed.

(** One completed facet job: [process_facet_job] writes the facet's marker
    with the value [read_comprehend_output] returned. *)
Lemma process_facet_job_run `{JsonCodec} : forall f jid e w uri name,
  service e (Completion.describe_api f) (JObj [("JobId", jid)]) = Ok (describe_reply f uri name) ->
  s3_fails e (S3Put (bucket_name e) (marker_key (py_replace (job_prefix f) "" name) f)
                    (OJson (read_result uri e (objects w)))) = false ->
  exists body t,
    Completion.process_facet_job f jid e w
    = (Ok (py_replace (job_prefix f) "" name, body),
       mkWorld (st_put (bucket_name e, marker_key (py_replace (job_prefix f) "" name) f)
                       (OJson (read_result uri e (objects w))) (objects w))
               (trace w ++ t)%list).
Proof.
  intros f jid e w uri name Hdesc Hput.
  unfold Completion.process_facet_job, bind, ask, call.
  cbv beta iota zeta. rewrite Hdesc. cbv beta iota.
  unfold describe_reply, py_get, ret. cbn [assoc]. rewrite String.eqb_refl.
  cbn -[Completion.read_comprehend_output put_object py_replace marker_key].
  destruct (read_comprehend_output_spec uri e
              (log w (Call (Completion.describe_api f) (JObj [("JobId", jid)])) true)) as [t Ht].
  rewrite Ht. cbv beta iota. unfold as_str. cbv beta iota.
  rewrite log_objects in *.
  rewrite put_object_ok by exact Hput.
  eexists; eexists. cbn [objects trace log]. rewrite <- ?app_assoc. reflexivity.
Qed.

(** ** The completion join, step by step *)

Lemma read_json_spec `{JsonCodec} b k e w :
  (forall o, s3_fails e o = false) ->
  Completion.read_json_from_s3 b k e w
  = (Ok (stored_json (objects w) (b, k)), log w (S3Get b k) (is_some (st_find (b, k) (objects w)))).
Proof.
  intros Hnf. unfold Completion.read_json_from_s3, stored_json, try_except, bind, get_object, s3, ret.
  rewrite Hnf. cbn [objects]. destruct (st_find (b, k) (objects w)) as [o|]; [|reflexivity].
  destruct o as [j|t|g]; cbn; try reflexivity.
  destruct (json_loads t); reflexivity.
Qed.

Lemma aggregate_run `{JsonCodec} id e w :
  (forall o, s3_fails e o = false) -> id <> "" ->
  exists ok t, Completion.aggregate_results_if_complete id e w
               = (Ok ok, mkWorld (agg_step e id (objects w)) (trace w ++ t))
    /\ firstn 3 (map fst t) = [S3Head (bucket_name e) (marker_key id Sentiment);
                               S3Head (bucket_name e) (marker_key id Entities);
                               S3Head (bucket_name e) (marker_key id KeyPhrases)].
Proof.
  intros Hnf Hid. pose proof (proj2 (String.eqb_neq _ _) Hid) as Hid'.
  unfold Completion.aggregate_results_if_complete, agg_step, markers_present, meta_value.
  rewrite Hid'. unfold try_except, bind, ask, ret. cbv beta iota zeta.
  repeat (rewrite object_exists_spec; cbv beta iota zeta).
  rewrite !Hnf. rewrite !log_objects. cbn [negb andb].
  destruct (is_some (st_find (bucket_name e, marker_key id Sentiment) (objects w)));
  destruct (is_some (st_find (bucket_name e, marker_key id Entities) (objects w)));
  destruct (is_some (st_find (bucket_name e, marker_key id KeyPhrases) (objects w)));
  cbn [andb negb];
  try (do 2 eexists; split;
       [ unfold log; cbn [objects trace]; rewrite <- ?app_assoc; cbn [app]; reflexivity
       | reflexivity ]).
  repeat (rewrite read_json_spec by exact Hnf; cbv beta iota zeta).
  rewrite object_exists_spec, Hnf. cbv beta iota zeta. rewrite !log_objects. cbn [negb andb].
  destruct (is_some (st_find (bucket_name e, metadata_key id) (objects w))).
  - rewrite read_json_spec by exact Hnf. cbv beta iota zeta. rewrite !log_objects.
    unfold py_get, raise, put_object, s3, ret. rewrite ?Hnf. cbv beta iota zeta.
    destruct (stored_json (objects w) (bucket_name e, metadata_key id));
      cbv beta iota zeta; rewrite ?Hnf; cbv beta iota zeta;
      (do 2 eexists; split;
       [ unfold log; cbn [objects trace]; rewrite <- ?app_assoc; cbn [app]; reflexivity
       | reflexivity ]).
  - unfold py_get, raise, put_object, s3, ret. rewrite ?Hnf. cbv beta iota zeta.
    do 2 eexists; split;
      [ unfold log; cbn [objects trace]; rewrite <- ?app_assoc; cbn [app]; reflexivity
      | reflexivity ].
Qed.

Lemma event_facet_ok `{JsonCodec} f e w :
  Completion.event_facet (JStr (facet_event_type f)) e w = (Ok (Some f), w).
Proof. destruct f; reflexivity. Qed.

(** One completion event of a facet job, when no S3 request fails and the
    job name decodes to the unit's analysis id: the facet's marker is
    written, then the join re-checks the three markers. *)
Lemma handler_facet_run `{JsonCodec} e id jid uri f w :
  (forall o, s3_fails e o = false) -> id <> "" -> jid <> "" ->
  service e (Completion.describe_api f) (JObj [("JobId", JStr jid)])
    = Ok (describe_reply f uri (job_prefix f ++ id)) ->
  py_replace (job_prefix f) "" (job_prefix f ++ id) = id ->
  exists r t,
    Completion.lambda_handler (completion_event f jid) e w
    = (Ok r, mkWorld (agg_step e id (st_put (bucket_name e, marker_key id f)
                                            (OJson (read_result uri e (objects w))) (objects w)))
                     (trace w ++ t))
    /\ statusCode r = 200
    /\ (forall g, In (S3Head (bucket_name e) (marker_key id g)) (map fst t)).
Proof.
  intros Hnf Hid Hjid Hdesc Hdec.
  pose proof (proj2 (String.eqb_neq _ _) Hjid) as Hjid'.
  unfold Completion.lambda_handler, completion_event.
  cbv beta iota zeta delta [try_except bind py_get ret truthy negb].
  cbn [assoc String.eqb Ascii.eqb Bool.eqb andb]. rewrite Hjid'. cbv beta iota zeta.
  rewrite event_facet_ok. cbv beta iota zeta.
  destruct (process_facet_job_run f (JStr jid) e w uri (job_prefix f ++ id) Hdesc (Hnf _))
    as (body & t1 & Hrun).
  rewrite Hdec in Hrun. rewrite Hrun. cbv beta iota zeta. cbn [fst snd].
  destruct (aggregate_run id e
              (mkWorld (st_put (bucket_name e, marker_key id f)
                               (OJson (read_result uri e (objects w))) (objects w))
                       (trace w ++ t1)) Hnf Hid) as (ok & t2 & Hagg & Hheads).
  rewrite Hagg. cbv beta iota zeta. cbn [objects trace].
  exists (mkResponse 200 body), (t1 ++ t2)%list.
  split; [rewrite app_assoc; reflexivity|]. split; [reflexivity|].
  intros g. rewrite map_app. apply in_or_app. right.
  rewrite <- (firstn_skipn 3 (map fst t2)), Hheads.
  destruct g; cbn; auto.
Qed.

Lemma st_list_put_filtered b p b' k o st :
  Completion.is_output_file k = false ->
  filter Completion.is_output_file (st_list b p (st_put (b', k) o st))
  = filter Completion.is_output_file (st_list b p st).
Proof.
  intros Hk. unfold st_list. induction st as [|[[b1 k1] o1] st IH]; cbn.
  - destruct (String.eqb b' b && starts_with p k); cbn; [rewrite Hk|]; reflexivity.
  - destruct (key_eqb (b', k) (b1, k1)) eqn:E.
    + unfold key_eqb in E. cbn in E. apply andb_true_iff in E as [E1 E2].
      apply String.eqb_eq in E1, E2. subst. cbn.
      destruct (String.eqb b1 b && starts_with p k1); reflexivity.
    + cbn. destruct (String.eqb b1 b && starts_with p k1); cbn; [|exact IH].
      destruct (Completion.is_output_file k1); [f_equal|]; exact IH.
Qed.

Lemma filter_head_true {A} (p : A -> bool) l x xs : filter p l = x :: xs -> p x = true.
Proof.
  intros Hf. assert (Hin : In x (filter p l)) by (rewrite Hf; left; reflexivity).
  apply filter_In in Hin. apply Hin.
Qed.

(** Reading an engine output does not depend on objects that are not
    engine outputs. *)
Lemma read_result_put_stable `{JsonCodec} uri e b' k o st :
  Completion.is_output_file k = false ->
  read_result uri e (st_put (b', k) o st) = read_result uri e st.
Proof.
  intros Hk. unfold read_result. destruct uri; try reflexivity.
  destruct (urlparse (unicode_nfkc e) s) as [[bucket path]|]; [|reflexivity].
  rewrite st_list_put_filtered by exact Hk.
  destruct (filter Completion.is_output_file (st_list bucket (lstrip_slash path) st)) as [|k0 ks] eqn:Hf;
    [reflexivity|].
  apply filter_head_true in Hf.
  rewrite st_find_put_other; [reflexivity|].
  intros Heq. injection Heq as -> ->. congruence.
Qed.

Lemma marker_not_output id f : Completion.is_output_file (marker_key id f) = false.
Proof.
  unfold Completion.is_output_file, ends_with, marker_key, SENTIMENT_PREFIX.
  destruct f; rewrite !rev_str_app; reflexivity.
Qed.

Lemma marker_keys_differ id f g : f <> g -> marker_key id f <> marker_key id g.
Proof. intros Hfg. destruct f, g; try congruence; keys_differ. Qed.

Lemma facets_cover (f1 f2 f3 : facet) : NoDup [f1; f2; f3] -> forall g, g = f1 \/ g = f2 \/ g = f3.
Proof.
  intros Hnd g. inversion Hnd as [|? ? Hn1 Hnd2]; subst. inversion Hnd2 as [|? ? Hn2 _]; subst.
  destruct f1, f2, f3, g; cbn in *; intuition congruence.
Qed.

Lemma agg_step_incomplete `{JsonCodec} e id st g :
  st_find (bucket_name e, marker_key id g) st = None -> agg_step e id st = st.
Proof.
  intros Hg. unfold agg_step, markers_present. destruct (String.eqb id ""); [reflexivity|].
  destruct g; rewrite Hg; cbn [is_some andb]; rewrite ?andb_false_r; reflexivity.
Qed.

Lemma marker_pair_differ (b id : string) f g : f <> g -> (b, marker_key id f) <> (b, marker_key id g).
Proof. intros Hfg Heq. apply (f_equal snd) in Heq. cbn [snd] in Heq. exact (marker_keys_differ id f g Hfg Heq). Qed.

Lemma metadata_marker_pair_differ (b id : string) f : (b, metadata_key id) <> (b, marker_key id f).
Proof. intros Heq. apply (f_equal snd) in Heq. cbn [snd] in Heq. exact (marker_metadata_keys_differ id id f (eq_sym Heq)). Qed.

Lemma analysis_marker_pair_differ (b id : string) f : (b, analysis_key id) <> (b, marker_key id f).
Proof. intros Heq. apply (f_equal snd) in Heq. cbn [snd] in Heq. exact (marker_analysis_keys_differ id id f (eq_sym Heq)). Qed.

Lemma meta_value_put_marker `{JsonCodec} e id f o st :
  meta_value e id (st_put (bucket_name e, marker_key id f) o st) = meta_value e id st.
Proof.
  unfold meta_value, stored_json.
  rewrite st_find_put_other by apply metadata_marker_pair_differ. reflexivity.
Qed.

Lemma bucket_at_time e iso : bucket_name (at_time e iso) = bucket_name e.
Proof. reflexivity. Qed.

Lemma meta_value_at_time `{JsonCodec} e iso id st : meta_value (at_time e iso) id st = meta_value e id st.
Proof. reflexivity. Qed.

Lemma read_result_at_time `{JsonCodec} u e iso st :
  read_result u (at_time e iso) st = read_result u e st.
Proof. reflexivity. Qed.

Lemma starts_with_app p s : starts_with p (p ++ s) = true.
Proof. induction p as [|c p IH]; cbn; [reflexivity | now rewrite Ascii.eqb_refl, IH]. Qed.

Lemma replace_aux_absent n p new s : contains p s = false -> replace_aux n p new s = s.
Proof.
  revert n. induction s as [|c s IH]; intros n Hc; destruct n; try reflexivity.
  cbn [contains] in Hc. apply orb_false_iff in Hc as [Hs Hc].
  cbn [replace_aux]. rewrite Hs. f_equal. apply IH, Hc.
Qed.

Lemma drop_app p s : drop (String.length p) (p ++ s) = s.
Proof. induction p as [|c p IH]; cbn; [destruct s; reflexivity | exact IH]. Qed.

(** Removing the facet's prefix from [<prefix><id>] gives back [id] when
    [id] does not itself contain the prefix. *)
Lemma prefixed_id_decodes f id :
  contains (job_prefix f) id = false -> py_replace (job_prefix f) "" (job_prefix f ++ id) = id.
Proof.
  intros Hc.
  assert (Hne : String.eqb (job_prefix f) "" = false) by (destruct f; reflexivity).
  assert (Hlen : exists n, String.length (job_prefix f ++ id) = S n)
    by (destruct f; eexists; reflexivity).
  destruct Hlen as [n Hn].
  assert (Hcons : exists c t, (job_prefix f ++ id)%string = String c t)
    by (destruct f; do 2 eexists; reflexivity).
  destruct Hcons as (c & t & Hct).
  unfold py_replace. rewrite Hne, Hn. cbn [replace_aux]. rewrite Hct. rewrite <- Hct.
  rewrite starts_with_app, drop_app. cbn [append]. apply replace_aux_absent, Hc.
Qed.

Section Claims.
Context `{JsonCodec}.

(** C1: with a ResultMarker missing at the time of the existence probes,
    [aggregate_results_if_complete] returns [False], leaves the store as it
    was and makes no request other than existence probes: no AggregateResult
    is written. *)
Theorem aggregate_needs_three_markers : forall e w analysis_id f,
  st_find (bucket_name e, marker_key analysis_id f) (objects w) = None ->
  exists t, Completion.aggregate_results_if_complete analysis_id e w
            = (Ok false, mkWorld (objects w) (trace w ++ t)%list)
         /\ Forall (fun x => exists k, fst x = S3Head (bucket_name e) k) t.
Proof.
  intros e w id f Hmiss.
  unfold Completion.aggregate_results_if_complete.
  destruct (String.eqb id "") eqn:Hid.
  - exists []. rewrite app_nil_r. destruct w. split; [reflexivity | constructor].
  - destruct f; (eexists; split;
      [ unfold try_except, bind, ask, ret; cbv beta iota;
        repeat (rewrite object_exists_spec; cbv beta iota);
        rewrite !log_objects, Hmiss; rewrite ?andb_false_r; cbn [negb andb is_some];
        unfold log; cbn [objects trace]; rewrite <- !app_assoc; reflexivity
      | repeat (apply Forall_cons; [eexists; reflexivity|]); apply Forall_nil ]).
Qed.

(** C8: a job-completion event whose [detail] is a dict (or absent) and
    whose [JobId] is missing or empty (any falsy value, [""] among them) gets
    status 400, and the handler makes no store request and no service call:
    the world (store and trace) is left exactly as it was. *)
Theorem completion_missing_job_id : forall kvs e w,
  match assoc "detail" kvs with
  | None => True
  | Some (JObj dk) => match assoc "JobId" dk with
                      | None => True
                      | Some j => truthy j = false
                      end
  | Some _ => False
  end ->
  Completion.lambda_handler (JObj kvs) e w
  = (Ok (Completion.err_response 400 "Invalid event structure"), w).
Proof.
  intros kvs e w Hd.
  unfold Completion.lambda_handler, try_except, bind, py_get, ret.
  destruct (assoc "detail" kvs) as [d|].
  - destruct d as [| | | | | dk]; try contradiction.
    destruct (assoc "JobId" dk) as [j|]; [rewrite Hd|]; reflexivity.
  - reflexivity.
Qed.

(** C6 (amended): [read_comprehend_output] parses the first output file as
    one JSON record per non-blank line and returns the record itself when
    exactly one was parsed, the list of records otherwise. *)
Theorem read_output_unwraps_singleton : forall e w u b path k ks o rs,
  urlparse (unicode_nfkc e) u = Some (b, path) ->
  s3_fails e (S3List b (lstrip_slash path)) = false ->
  filter Completion.is_output_file (st_list b (lstrip_slash path) (objects w)) = k :: ks ->
  s3_fails e (S3Get b k) = false ->
  st_find (b, k) (objects w) = Some o ->
  Completion.parse_records (split_on "010"%char (strip (Completion.decompressed_text o))) = Some rs ->
  fst (Completion.read_comprehend_output (JStr u) e w) = Ok (Completion.unwrap_singleton rs)
  /\ (forall x, rs = [x] -> Completion.unwrap_singleton rs = x)
  /\ (List.length rs <> 1 -> Completion.unwrap_singleton rs = JArr rs).
Proof.
  intros e w u b path k ks o rs Hu Hl Hf Hg Ho Hp.
  destruct (read_comprehend_output_spec (JStr u) e w) as [t Ht].
  split; [|split].
  - rewrite Ht. cbn [fst read_result]. rewrite Hu, Hl, Hf, Hg, Ho, Hp. reflexivity.
  - intros x ->. reflexivity.
  - intros Hn. destruct rs as [|r1 [|r2 rs]]; cbn in *; [reflexivity | lia | reflexivity].
Qed.

(** C10 (amended): [read_comprehend_output] never raises and leaves the
    store unchanged; it returns the empty dict when the location is not a
    string or [urlparse] rejects it, the listing fails, no [.out]/[.gz] object is listed, reading the
    first one fails, or one of its lines is not JSON; and the facet's
    ResultMarker is written with whatever it returned. *)
Theorem read_output_failures_give_empty :
  (forall uri e w, exists r w',
      Completion.read_comprehend_output uri e w = (Ok r, w') /\ objects w' = objects w)
  /\ (forall uri e w, (forall u, uri <> JStr u) ->
      fst (Completion.read_comprehend_output uri e w) = Ok (JObj []))
  /\ (forall u e w, urlparse (unicode_nfkc e) u = None ->
      fst (Completion.read_comprehend_output (JStr u) e w) = Ok (JObj []))
  /\ (forall u b path e w, urlparse (unicode_nfkc e) u = Some (b, path) ->
      (s3_fails e (S3List b (lstrip_slash path)) = true
       \/ filter Completion.is_output_file (st_list b (lstrip_slash path) (objects w)) = []
       \/ exists k ks, filter Completion.is_output_file (st_list b (lstrip_slash path) (objects w)) = k :: ks
              /\ (s3_fails e (S3Get b k) = true
                  \/ st_find (b, k) (objects w) = None
                  \/ exists o, st_find (b, k) (objects w) = Some o
                        /\ Completion.parse_records
                             (split_on "010"%char (strip (Completion.decompressed_text o))) = None)) ->
      fst (Completion.read_comprehend_output (JStr u) e w) = Ok (JObj []))
  /\ (forall f jid e w uri name r,
      service e (Completion.describe_api f) (JObj [("JobId", jid)]) = Ok (describe_reply f uri name) ->
      fst (Completion.read_comprehend_output uri e w) = Ok r ->
      s3_fails e (S3Put (bucket_name e) (marker_key (py_replace (job_prefix f) "" name) f) (OJson r)) = false ->
      exists body w',
        Completion.process_facet_job f jid e w = (Ok (py_replace (job_prefix f) "" name, body), w')
        /\ st_find (bucket_name e, marker_key (py_replace (job_prefix f) "" name) f) (objects w')
           = Some (OJson r)).
Proof.
  split; [|split; [|split; [|split]]].
  - intros uri e w. destruct (read_comprehend_output_spec uri e w) as [t Ht].
    rewrite Ht. do 2 eexists. split; reflexivity.
  - intros uri e w Hnot. destruct (read_comprehend_output_spec uri e w) as [t Ht].
    rewrite Ht. cbn [fst]. unfold read_result.
    destruct uri; try reflexivity. exfalso. exact (Hnot s eq_refl).
  - intros u e w Hu. destruct (read_comprehend_output_spec (JStr u) e w) as [t Ht].
    rewrite Ht. cbn [fst read_result]. rewrite Hu. reflexivity.
  - intros u b path e w Hu Hcases.
    destruct (read_comprehend_output_spec (JStr u) e w) as [t Ht].
    rewrite Ht. cbn [fst read_result]. rewrite Hu.
    destruct Hcases as [Hl | [Hf | (k & ks & Hf & Hk)]].
    + rewrite Hl. reflexivity.
    + destruct (s3_fails e (S3List b (lstrip_slash path))); [reflexivity|].
      rewrite Hf. reflexivity.
    + destruct (s3_fails e (S3List b (lstrip_slash path))); [reflexivity|]. rewrite Hf.
      destruct Hk as [Hg | [Ho | (o & Ho & Hp)]].
      * rewrite Hg. reflexivity.
      * destruct (s3_fails e (S3Get b k)); [reflexivity|]. rewrite Ho. reflexivity.
      * destruct (s3_fails e (S3Get b k)); [reflexivity|]. rewrite Ho, Hp. reflexivity.
  - intros f jid e w uri name r Hdesc Hread Hput.
    destruct (read_comprehend_output_spec uri e w) as [t0 H0].
    rewrite H0 in Hread. cbn [fst] in Hread. injection Hread as Hr. subst r.
    destruct (process_facet_job_run f jid e w uri name Hdesc Hput) as (body & t & Hrun).
    exists body. eexists. split; [exact Hrun|]. cbn [objects]. apply st_find_put_same.
Qed.

(** C7 (amended): a job-completion event whose job name is missing or
    empty is refused with 400, whatever its status, and the world is left
    as it was.  For an event that names its job and whose status is not
    [COMPLETED], the relay answers 200 and leaves the world as it was: no
    store request, no external call.  For a [COMPLETED] job whose Transcribe
    record gives a transcript location that [urlparse] accepts (and a
    [Media] field that is a dict or absent), and whose existence probe
    succeeds, it answers 200 whatever happens next: a failed read, parse or
    copy included. *)
Theorem relay_noop_and_copy_failure_200 :
  (forall kvs dk e w,
      (assoc "detail" kvs = Some (JObj dk) \/ (assoc "detail" kvs = None /\ dk = [])) ->
      (forall jn, assoc "TranscriptionJobName" dk = Some jn -> truthy jn = false) ->
      Relay.lambda_handler (JObj kvs) e w
      = (Ok (Completion.err_response 400 "Invalid event structure"), w))
  /\ (forall kvs dk jn e w,
      assoc "detail" kvs = Some (JObj dk) ->
      assoc "TranscriptionJobName" dk = Some jn -> truthy jn = true ->
      (forall s, assoc "TranscriptionJobStatus" dk = Some (JStr s) -> s <> "COMPLETED") ->
      exists body, Relay.lambda_handler (JObj kvs) e w = (Ok (mkResponse 200 body), w))
  /\ (forall kvs dk job e w rkvs tj tr uri b p,
      assoc "detail" kvs = Some (JObj dk) ->
      assoc "TranscriptionJobName" dk = Some (JStr job) -> job <> "" ->
      assoc "TranscriptionJobStatus" dk = Some (JStr "COMPLETED") ->
      service e "get_transcription_job" (JObj [("TranscriptionJobName", JStr job)])
        = Ok (JObj rkvs) ->
      assoc "TranscriptionJob" rkvs = Some (JObj tj) ->
      assoc "Transcript" tj = Some (JObj tr) ->
      assoc "TranscriptFileUri" tr = Some (JStr uri) -> uri <> "" ->
      (forall m, assoc "Media" tj = Some m -> exists mkvs, m = JObj mkvs) ->
      urlparse (unicode_nfkc e) uri = Some (b, p) ->
      s3_fails e (S3Head b (lstrip_slash p)) = false ->
      st_find (b, lstrip_slash p) (objects w) <> None ->
      exists r w', Relay.lambda_handler (JObj kvs) e w = (Ok r, w') /\ statusCode r = 200).
Proof.
  split; [|split].
  - intros kvs dk e w Hd Hn.
    unfold Relay.lambda_handler, try_except, bind, py_get, ret.
    assert (Hdet : match assoc "detail" kvs with Some v => v | None => JObj [] end = JObj dk)
      by (destruct Hd as [-> | [-> ->]]; reflexivity).
    rewrite Hdet. cbv beta iota.
    destruct (assoc "TranscriptionJobName" dk) as [jn|] eqn:Ejn.
    + rewrite (Hn jn eq_refl). reflexivity.
    + reflexivity.
  - intros kvs dk jn e w Hd Hn Ht Hs.
    unfold Relay.lambda_handler, try_except, bind, py_get, ret.
    rewrite Hd, Hn. rewrite Ht. cbv beta iota.
    destruct (assoc "TranscriptionJobStatus" dk) as [st|] eqn:Est.
    + destruct st; try (eexists; reflexivity).
      rewrite (proj2 (String.eqb_neq s "COMPLETED") (Hs s eq_refl)).
      eexists; reflexivity.
    + eexists; reflexivity.
  - intros kvs dk job e w rkvs tj tr uri b p Hd Hn Hne Hs Hsvc Hj Ht Hu Hune Hm Hp Hh Hf.
    unfold Relay.lambda_handler.
    apply try_ok_ex.
    eapply bind_ok_ex; [unfold py_get, ret; rewrite Hd; reflexivity | cbv beta].
    eapply bind_ok_ex; [unfold py_get, ret; rewrite Hn; reflexivity | cbv beta].
    eapply bind_ok_ex; [unfold py_get, ret; rewrite Hs; reflexivity | cbv beta].
    unfold truthy. rewrite (proj2 (String.eqb_neq job "") Hne).
    replace (String.eqb "COMPLETED" "COMPLETED") with true by reflexivity.
    cbv beta iota.
    eapply bind_ok_ex; [reflexivity | cbv beta].
    eapply bind_ok_ex; [unfold call; rewrite Hsvc; reflexivity | cbv beta].
    eapply bind_ok_ex; [unfold py_get, ret; rewrite Hj; reflexivity | cbv beta].
    eapply bind_ok_ex; [unfold py_get, ret; rewrite Ht; reflexivity | cbv beta].
    eapply bind_ok_ex; [unfold py_get, ret; rewrite Hu; reflexivity | cbv beta].
    destruct (assoc "Media" tj) as [m|] eqn:Em.
    + destruct (Hm m eq_refl) as [mkvs ->].
      eapply bind_ok_ex; [unfold py_get, ret; rewrite Em; reflexivity | cbv beta].
      eapply bind_ok_ex; [reflexivity | cbv beta].
      rewrite (proj2 (String.eqb_neq uri "") Hune). cbv beta iota.
      eapply bind_ok_ex; [reflexivity | cbv beta].
      eapply bind_ok_ex; [reflexivity | cbv beta].
      rewrite Hp. cbv beta iota zeta.
      eapply bind_ok_ex.
      { unfold try_except, bind, head_object, s3, ret, log. rewrite Hh. cbn [objects].
        destruct (st_find (b, lstrip_slash p) (objects w)); [reflexivity | contradiction]. }
      cbv beta iota.
      apply try_total.
      * repeat (apply only_bind; intro; cbv beta zeta). apply only_ret. reflexivity.
      * intros x e' w'. do 2 eexists. split; reflexivity.
    + eapply bind_ok_ex; [unfold py_get, ret; rewrite Em; reflexivity | cbv beta].
      eapply bind_ok_ex; [reflexivity | cbv beta].
      rewrite (proj2 (String.eqb_neq uri "") Hune). cbv beta iota.
      eapply bind_ok_ex; [reflexivity | cbv beta].
      eapply bind_ok_ex; [reflexivity | cbv beta].
      rewrite Hp. cbv beta iota zeta.
      eapply bind_ok_ex.
      { unfold try_except, bind, head_object, s3, ret, log. rewrite Hh. cbn [objects].
        destruct (st_find (b, lstrip_slash p) (objects w)); [reflexivity | contradiction]. }
      cbv beta iota.
      apply try_total.
      * repeat (apply only_bind; intro; cbv beta zeta). apply only_ret. reflexivity.
      * intros x e' w'. do 2 eexists. split; reflexivity.
Qed.

(** C4 (amended): for a unit whose three facet jobs complete, with no S3
    request failing, an analysis id that contains none of the job-name
    prefixes [sentiment-], [entities-] and [key-phrases-], a
    metadata record that is a dict or absent, and no marker and no
    AggregateResult at the start, processing the three completion events
    one after the other in any of the six orders re-checks the three
    markers after each event, writes no AggregateResult after the first
    two, and after the third stores the AggregateResult [join_result],
    which depends on the order only through the clock of the third
    invocation. *)
Theorem join_any_order : forall e id (jid : facet -> string) (uri : facet -> json) w0
    f1 f2 f3 iso1 iso2 iso3,
  (forall o, s3_fails e o = false) -> id <> "" -> (forall f, jid f <> "") ->
  (forall f, service e (Completion.describe_api f) (JObj [("JobId", JStr (jid f))])
             = Ok (describe_reply f (uri f) (job_prefix f ++ id))) ->
  (forall f, contains (job_prefix f) id = false) ->
  (forall f, st_find (bucket_name e, marker_key id f) (objects w0) = None) ->
  st_find (bucket_name e, analysis_key id) (objects w0) = None ->
  (exists kvs, meta_value e id (objects w0) = JObj kvs) ->
  NoDup [f1; f2; f3] ->
  match Completion.lambda_handler (completion_event f1 (jid f1)) (at_time e iso1) w0 with
  | (Ok r1, w1) =>
    match Completion.lambda_handler (completion_event f2 (jid f2)) (at_time e iso2) w1 with
    | (Ok r2, w2) =>
      match Completion.lambda_handler (completion_event f3 (jid f3)) (at_time e iso3) w2 with
      | (Ok r3, w3) =>
          statusCode r1 = 200 /\ statusCode r2 = 200 /\ statusCode r3 = 200
          /\ st_find (bucket_name e, analysis_key id) (objects w1) = None
          /\ st_find (bucket_name e, analysis_key id) (objects w2) = None
          /\ st_find (bucket_name e, analysis_key id) (objects w3)
             = Some (OJson (join_result e id uri iso3 (objects w0)))
          /\ exists t1 t2 t3,
               trace w1 = (trace w0 ++ t1)%list /\ trace w2 = (trace w1 ++ t2)%list
               /\ trace w3 = (trace w2 ++ t3)%list
               /\ forall g, In (S3Head (bucket_name e) (marker_key id g)) (map fst t1)
                           /\ In (S3Head (bucket_name e) (marker_key id g)) (map fst t2)
                           /\ In (S3Head (bucket_name e) (marker_key id g)) (map fst t3)
      | _ => False
      end
    | _ => False
    end
  | _ => False
  end.
Proof.
  intros e id jid uri w0 f1 f2 f3 iso1 iso2 iso3 Hnf Hid Hjid Hsvc Hdec Hm0 Ha0 [kvs Hmeta] Hnd.
  pose proof (facets_cover f1 f2 f3 Hnd) as Hcov.
  assert (Hd12 : f1 <> f2) by (intros ->; inversion Hnd; subst; cbn in *; tauto).
  assert (Hd13 : f1 <> f3) by (intros ->; inversion Hnd; subst; cbn in *; tauto).
  assert (Hd23 : f2 <> f3)
    by (intros ->; inversion Hnd as [|? ? _ Hnd2]; subst; inversion Hnd2; subst; cbn in *; tauto).
  (* first event *)
  destruct (handler_facet_run (at_time e iso1) id (jid f1) (uri f1) f1 w0 (fun o => Hnf o) Hid
              (Hjid f1) (Hsvc f1) (prefixed_id_decodes f1 id (Hdec f1))) as (r1 & t1 & H1 & S1 & P1).
  rewrite H1. cbv beta iota. rewrite read_result_at_time, !bucket_at_time.
  rewrite (agg_step_incomplete _ _ _ f2)
    by (rewrite bucket_at_time, st_find_put_other by (apply marker_pair_differ; congruence);
        apply Hm0).
  (* second event *)
  match goal with
  | |- context [Completion.lambda_handler (completion_event f2 (jid f2)) (at_time e iso2) ?w] =>
      destruct (handler_facet_run (at_time e iso2) id (jid f2) (uri f2) f2 w (fun o => Hnf o) Hid
                  (Hjid f2) (Hsvc f2) (prefixed_id_decodes f2 id (Hdec f2))) as (r2 & t2 & H2 & S2 & P2)
  end.
  rewrite H2. cbv beta iota. cbn [objects trace]. rewrite read_result_at_time, !bucket_at_time.
  rewrite read_result_put_stable by apply marker_not_output.
  rewrite (agg_step_incomplete _ _ _ f3)
    by (rewrite bucket_at_time, !st_find_put_other by (apply marker_pair_differ; congruence);
        apply Hm0).
  (* third event *)
  match goal with
  | |- context [Completion.lambda_handler (completion_event f3 (jid f3)) (at_time e iso3) ?w] =>
      destruct (handler_facet_run (at_time e iso3) id (jid f3) (uri f3) f3 w (fun o => Hnf o) Hid
                  (Hjid f3) (Hsvc f3) (prefixed_id_decodes f3 id (Hdec f3))) as (r3 & t3 & H3 & S3 & P3)
  end.
  rewrite H3. cbv beta iota. cbn [objects trace]. rewrite read_result_at_time, !bucket_at_time.
  rewrite !read_result_put_stable by apply marker_not_output.
  match goal with
  | |- context [agg_step (at_time e iso3) id ?st] =>
      assert (Hm3 : forall g, st_find (bucket_name e, marker_key id g) st
                              = Some (OJson (read_result (uri g) e (objects w0))));
      [ intros g; destruct (Hcov g) as [-> | [-> | ->]];
        [ rewrite !st_find_put_other by (apply marker_pair_differ; congruence);
          apply st_find_put_same
        | rewrite st_find_put_other by (apply marker_pair_differ; congruence);
          apply st_find_put_same
        | apply st_find_put_same ]
      | ];
      assert (Hmeta3 : meta_value e id st = JObj kvs)
        by (rewrite !meta_value_put_marker; exact Hmeta);
      assert (Hagg : agg_step (at_time e iso3) id st
                     = st_put (bucket_name e, analysis_key id)
                         (OJson (join_result e id uri iso3 (objects w0))) st)
  end.
  { unfold agg_step. rewrite (proj2 (String.eqb_neq _ _) Hid).
    unfold markers_present. rewrite !bucket_at_time, !Hm3. cbn [is_some andb].
    rewrite meta_value_at_time, Hmeta3. unfold aggregate_value, join_result.
    rewrite !bucket_at_time. unfold stored_json. rewrite !Hm3, Hmeta. reflexivity. }
  rewrite Hagg.
  split; [exact S1|]. split; [exact S2|]. split; [exact S3|].
  split; [rewrite st_find_put_other by apply analysis_marker_pair_differ; exact Ha0|].
  split; [rewrite !st_find_put_other by apply analysis_marker_pair_differ; exact Ha0|].
  split; [apply st_find_put_same|].
  exists t1, t2, t3. split; [reflexivity|]. split; [reflexivity|]. split; [reflexivity|].
  intros g. split; [apply P1 | split; [apply P2 | apply P3]].
Qed.


(** C3 (amended): an upload whose transcript text is more than 5000 UTF-8
    bytes takes the job path.  When its two store writes succeed, it writes
    the staged text [comprehend-input/{analysisId}.txt], attempts the three
    job starts (sentiment, entities, key phrases) in that order, writes one
    Metadata record [sentiment/{analysisId}-metadata.json] and answers 202;
    no ResultMarker of any unit is written or changed.  When the write of
    the staged text fails, it answers 500 right after that failed write:
    no job start is attempted and no Metadata record is written. *)
Theorem router_job_path : forall kvs dk bk okv b rawkey e w doc text id,
  assoc "detail" kvs = Some (JObj dk) ->
  assoc "bucket" dk = Some (JObj bk) -> assoc "name" bk = Some (JStr b) -> b <> "" ->
  assoc "object" dk = Some (JObj okv) -> assoc "key" okv = Some (JStr rawkey) ->
  unquote_plus rawkey <> "" ->
  s3_fails e (S3Get b (unquote_plus rawkey)) = false ->
  st_find (b, unquote_plus rawkey) (objects w) = Some (OJson doc) ->
  (forall e' w', Router.transcript_of doc e' w' = (Ok (JStr text), w')) ->
  text <> "" -> Router.SYNC_API_LIMIT_BYTES < String.length text ->
  id = (Router.base_name (unquote_plus rawkey) ++ "-" ++ now_stamp e)%string ->
  (s3_fails e (S3Put (bucket_name e) (input_key id) (OText text)) = false ->
   (forall o, s3_fails e (S3Put (bucket_name e) (metadata_key id) o) = false) ->
   job_outcome e text id (log w (S3Get b (unquote_plus rawkey)) true)
     (Router.lambda_handler (JObj kvs) e w)
   /\ (forall id' f, st_find (bucket_name e, marker_key id' f)
                             (objects (snd (Router.lambda_handler (JObj kvs) e w)))
                    = st_find (bucket_name e, marker_key id' f) (objects w)))
  /\ (s3_fails e (S3Put (bucket_name e) (input_key id) (OText text)) = true ->
      Router.lambda_handler (JObj kvs) e w
      = (Ok (Completion.err_response 500 "Asynchronous analysis failed"),
         log (log w (S3Get b (unquote_plus rawkey)) true)
             (S3Put (bucket_name e) (input_key id) (OText text)) false)).
Proof.
  intros kvs dk bk okv b rawkey e w doc text id Hd Hbk Hn Hbne Hok Hk Hkne Hget Hfind Htr Htne
    Hlen Hid.
  rewrite (router_dispatch kvs dk bk okv b rawkey e w doc text Hd Hbk Hn Hbne Hok Hk Hkne Hget
             Hfind Htr Htne).
  apply Nat.leb_gt in Hlen. rewrite Hlen. subst id.
  split.
  - intros Hin Hmeta.
    pose proof (job_run text (Router.base_name (unquote_plus rawkey) ++ "-" ++ now_stamp e)
                  (unquote_plus rawkey) b e (log w (S3Get b (unquote_plus rawkey)) true) Hin Hmeta)
      as J.
    split; [exact J|].
    intros id' f.
    destruct (Router.process_asynchronous_analysis _ _ _ _ _ _) as [[r|x] w']; [|contradiction].
    destruct J as (_ & meta & t & _ & _ & _ & Hobj).
    cbn [snd]. rewrite Hobj.
    rewrite !st_find_put_other; [reflexivity | |].
    + intros Heq. apply (f_equal snd) in Heq. cbn [snd] in Heq.
      destruct (input_keys_differ (Router.base_name (unquote_plus rawkey) ++ "-" ++ now_stamp e) id')
        as (H1 & H2 & H3 & _). destruct f; congruence.
    + intros Heq. apply (f_equal snd) in Heq. cbn [snd] in Heq.
      exact (marker_metadata_keys_differ _ _ _ Heq).
  - intros Hin. apply async_staging_fails, Hin.
Qed.

(** C9: the inline path stores its AggregateResult under
    [analysis_key], the key under which the completion join stores its own
    once the three ResultMarkers exist; and a successful inline run from a
    store holding no ResultMarker and no Metadata record for the unit
    leaves the AggregateResult present while still no ResultMarker and no
    Metadata record exist for it. *)
Theorem inline_aggregate_without_markers :
  (forall id e w kvs,
      (forall o, s3_fails e o = false) -> id <> "" ->
      markers_present e id (objects w) = true -> meta_value e id (objects w) = JObj kvs ->
      exists ok w', Completion.aggregate_results_if_complete id e w = (Ok ok, w')
        /\ objects w' = st_put (bucket_name e, analysis_key id)
                              (OJson (aggregate_value e id (objects w) kvs)) (objects w))
  /\ (forall text id key bkt e w,
      (forall f, st_find (bucket_name e, marker_key id f) (objects w) = None) ->
      st_find (bucket_name e, metadata_key id) (objects w) = None ->
      match Router.process_synchronous_analysis text id key bkt e w with
      | (Ok r, w') =>
          statusCode r = 200 ->
          (exists o, st_find (bucket_name e, analysis_key id) (objects w') = Some o /\ inline_record o)
          /\ (forall f, st_find (bucket_name e, marker_key id f) (objects w') = None)
          /\ st_find (bucket_name e, metadata_key id) (objects w') = None
      | (Raise _, _) => True
      end).
Proof.
  split.
  - intros id e w kvs Hnf Hid Hm Hmeta.
    destruct (aggregate_run id e w Hnf Hid) as (ok & t & Hrun & _).
    rewrite Hrun. do 2 eexists. split; [reflexivity|]. cbn [objects].
    unfold agg_step. rewrite (proj2 (String.eqb_neq _ _) Hid), Hm, Hmeta. reflexivity.
  - intros text id key bkt e w Hm Hmd.
    pose proof (inline_run text id key bkt e w) as Hr.
    destruct (Router.process_synchronous_analysis text id key bkt e w) as [[r|x] w']; [|trivial].
    destruct Hr as (t & _ & _ & _ & _ & H200 & _).
    intros Hs. destruct (H200 Hs) as (o & Ho & Hst). rewrite Hst.
    split; [exists o; split; [apply st_find_put_same | exact Ho]|].
    split.
    + intros f. rewrite st_find_put_other; [apply Hm|].
      intros Heq. exact (analysis_marker_pair_differ _ _ _ (eq_sym Heq)).
    + rewrite st_find_put_other; [exact Hmd|].
      intros Heq. apply (f_equal snd) in Heq. cbn [snd] in Heq.
      exact (metadata_analysis_keys_differ _ _ Heq).
Qed.

End Claims.

(** C5: the completion join decodes the analysis id of a job with
    [str.replace], which removes every occurrence of the facet prefix, not
    only the leading one.  For the unit of [my-sentiment-talk.m4a] the
    sentiment marker is written under another analysis id. *)
Theorem sentiment_job_name_decode_mangles_id :
  py_replace (job_prefix Sentiment) "" (job_prefix Sentiment ++ talk_id)
    = "yerttle-my-talk-20240101-120000-20240101-120005"
  /\ match Completion.process_facet_job Sentiment (JStr "job-1")
              (env_ok (unit_service talk_id) "2024-01-01T12:10:00")
              (empty_world (output_store "1")) with
     | (Ok (id, _), w') =>
         id <> talk_id
         /\ st_find ("yerttle-tours", marker_key talk_id Sentiment) (objects w') = None
         /\ st_find ("yerttle-tours", marker_key id Sentiment) (objects w') = Some (OJson (JNum 1))
     | _ => False
     end.
Proof.
  split; [reflexivity|]. vm_compute.
  split; [intro Hc; discriminate Hc | split; reflexivity].
Qed.

(** C6, counterexample: a single-line output holding the record [1] and the
    same content pre-wrapped in a one-element sequence, [[1]], give
    different ResultMarkers. *)
Lemma prewrapped_output_not_unwrapped :
  let run txt := Completion.process_facet_job Sentiment (JStr "job-1")
                   (env_ok (unit_service ep_id) "2024-01-01T12:10:00")
                   (empty_world (output_store txt)) in
  st_find ("yerttle-tours", marker_key ep_id Sentiment) (objects (snd (run "1")))
    = Some (OJson (JNum 1))
  /\ st_find ("yerttle-tours", marker_key ep_id Sentiment) (objects (snd (run "[1]")))
    = Some (OJson (JArr [JNum 1]))
  /\ OJson (JNum 1) <> OJson (JArr [JNum 1]).
Proof.
  vm_compute. split; [reflexivity | split; [reflexivity | intro Hc; discriminate Hc]].
Qed.

(** C10, counterexample: an output file that is not gzip-compressed makes
    [gzip.decompress] fail, and its content is still parsed: the result is
    the record, not the empty dict. *)
Lemma uncompressed_output_still_parsed :
  Completion.decompressed_text (OText "1") = "1"
  /\ fst (Completion.read_comprehend_output output_uri (env_ok no_service "2024-01-01T12:10:00")
                                           (empty_world (output_store "1")))
     = Ok (JNum 1)
  /\ JNum 1 <> JObj [].
Proof.
  split; [reflexivity|]. vm_compute. split; [reflexivity | intro Hc; discriminate Hc].
Qed.


(** C3, counterexample: a 5001-byte transcript whose staged-text write
    fails gets status 500; no job start is attempted and no Metadata record
    is written. *)
Lemma failed_staging_starts_no_job :
  match Router.lambda_handler (JObj upload_fields) (env_puts_fail start_service "2024-01-01T12:00:05")
          (empty_world (upload_store (text_of_length 5001))) with
  | (Ok r, w') =>
      statusCode r = 500
      /\ objects w' = upload_store (text_of_length 5001)
      /\ map fst (trace w') = [S3Get "yerttle-tours" upload_key;
                               S3Put "yerttle-tours" (input_key "episode1-20240101-120005")
                                     (OText (text_of_length 5001))]
  | (Raise _, _) => False
  end.
Proof. vm_compute. split; [reflexivity | split; reflexivity]. Qed.

(** C7, counterexample: a FAILED job event whose job name is empty is
    answered with status 400, not 200. *)
Lemma unnamed_failed_job_rejected :
  Relay.lambda_handler (JObj (relay_fields "FAILED" "")) (env_ok no_service "2024-01-01T12:00:05")
    (empty_world [])
  = (Ok (Completion.err_response 400 "Invalid event structure"), empty_world []).
Proof. vm_compute. reflexivity. Qed.

(** C4, counterexample: the unit handled in the order sentiment, entities,
    key phrases, and then again from the same store in the order key
    phrases, entities, sentiment an hour later, gets two different
    AggregateResults: the [timestamp] field is the clock of the invocation
    that writes it. *)
Lemma aggregate_timestamp_from_last_event :
  st_find ("yerttle-tours", analysis_key ep_id)
    (objects (run_three unit_env Sentiment Entities KeyPhrases
                "2024-01-01T12:10:00" "2024-01-01T12:20:00" "2024-01-01T12:30:00"
                (empty_world (output_store "1"))))
  = Some (OJson (join_result unit_env ep_id (fun _ => output_uri) "2024-01-01T12:30:00"
                             (output_store "1")))
  /\ st_find ("yerttle-tours", analysis_key ep_id)
       (objects (run_three unit_env KeyPhrases Entities Sentiment
                   "2024-01-01T13:10:00" "2024-01-01T13:20:00" "2024-01-01T13:30:00"
                   (empty_world (output_store "1"))))
     = Some (OJson (join_result unit_env ep_id (fun _ => output_uri) "2024-01-01T13:30:00"
                                (output_store "1")))
  /\ join_result unit_env ep_id (fun _ => output_uri) "2024-01-01T12:30:00" (output_store "1")
     <> join_result unit_env ep_id (fun _ => output_uri) "2024-01-01T13:30:00" (output_store "1").
Proof.
  vm_compute. split; [reflexivity | split; [reflexivity | intro Hc; discriminate Hc]].
Qed.

(** ** Instances of the claims' theorems on concrete runs *)

Lemma aggregate_needs_three_markers_witness :
  st_find ("yerttle-tours", marker_key ep_id KeyPhrases) two_markers_store = None
  /\ exists t, Completion.aggregate_results_if_complete ep_id (env_ok no_service "2024-01-01T12:10:00")
                 (empty_world two_markers_store)
               = (Ok false, mkWorld two_markers_store ([] ++ t)%list)
            /\ Forall (fun x => exists k, fst x = S3Head "yerttle-tours" k) t.
Proof.
  split; [vm_compute; reflexivity|].
  apply (aggregate_needs_three_markers (env_ok no_service "2024-01-01T12:10:00")
           (empty_world two_markers_store) ep_id KeyPhrases).
  vm_compute. reflexivity.
Defined.

Lemma completion_missing_job_id_witness :
  truthy (JStr "") = false
  /\ Completion.lambda_handler
       (JObj [("detail", JObj [("JobId", JStr ""); ("JobStatus", JStr "COMPLETED")])])
       (env_ok no_service "2024-01-01T12:10:00") (empty_world markers_store)
     = (Ok (Completion.err_response 400 "Invalid event structure"), empty_world markers_store).
Proof.
  split; [reflexivity|].
  apply (completion_missing_job_id [("detail", JObj [("JobId", JStr ""); ("JobStatus", JStr "COMPLETED")])]).
  reflexivity.
Defined.

Lemma read_output_unwraps_singleton_witness :
  urlparse ascii_nfkc "s3://yerttle-tours/comprehend-output/unit/"
  = Some ("yerttle-tours", "/comprehend-output/unit/")
  /\ fst (Completion.read_comprehend_output (JStr "s3://yerttle-tours/comprehend-output/unit/")
            (env_ok no_service "2024-01-01T12:10:00") (empty_world (output_store "1")))
     = Ok (Completion.unwrap_singleton [JNum 1])
  /\ (forall x, [JNum 1] = [x] -> Completion.unwrap_singleton [JNum 1] = x)
  /\ (List.length [JNum 1] <> 1 -> Completion.unwrap_singleton [JNum 1] = JArr [JNum 1]).
Proof.
  split; [vm_compute; reflexivity|].
  apply (read_output_unwraps_singleton (env_ok no_service "2024-01-01T12:10:00")
           (empty_world (output_store "1")) "s3://yerttle-tours/comprehend-output/unit/"
           "yerttle-tours" "/comprehend-output/unit/"
           "comprehend-output/unit/123-SENTIMENT/output/part.out" [] (OText "1") [JNum 1]);
    vm_compute; reflexivity.
Defined.

Lemma read_output_failures_give_empty_witness :
  fst (Completion.read_comprehend_output (JStr "s3://yerttle-tours/comprehend-output/unit/")
         (env_ok no_service "2024-01-01T12:10:00") (empty_world manifest_store))
  = Ok (JObj [])
  /\ fst (Completion.read_comprehend_output (JStr "s3://yerttle-tours]/comprehend-output/unit/")
           (env_ok no_service "2024-01-01T12:10:00") (empty_world (output_store "1")))
     = Ok (JObj [])
  /\ exists body w',
       Completion.process_facet_job Sentiment (JStr "job-1") unit_env (empty_world (output_store "oops"))
       = (Ok (py_replace (job_prefix Sentiment) "" (job_prefix Sentiment ++ ep_id), body), w')
       /\ st_find ("yerttle-tours", marker_key (py_replace (job_prefix Sentiment) "" (job_prefix Sentiment ++ ep_id)) Sentiment)
                  (objects w') = Some (OJson (JObj [])).
Proof.
  split; [|split].
  - apply (proj1 (proj2 (proj2 (proj2 read_output_failures_give_empty)))
             "s3://yerttle-tours/comprehend-output/unit/" "yerttle-tours" "/comprehend-output/unit/"
             (env_ok no_service "2024-01-01T12:10:00") (empty_world manifest_store));
      [vm_compute; reflexivity | right; left; vm_compute; reflexivity].
  - apply (proj1 (proj2 (proj2 read_output_failures_give_empty))
             "s3://yerttle-tours]/comprehend-output/unit/"
             (env_ok no_service "2024-01-01T12:10:00") (empty_world (output_store "1")));
      vm_compute; reflexivity.
  - apply (proj2 (proj2 (proj2 (proj2 read_output_failures_give_empty)))
             Sentiment (JStr "job-1") unit_env (empty_world (output_store "oops")) output_uri
             (job_prefix Sentiment ++ ep_id) (JObj []));
      vm_compute; reflexivity.
Defined.

Lemma relay_noop_and_copy_failure_200_witness :
  Relay.lambda_handler (JObj (relay_fields "FAILED" "")) (env_ok no_service "2024-01-01T12:00:05")
    (empty_world relay_store)
  = (Ok (Completion.err_response 400 "Invalid event structure"), empty_world relay_store)
  /\ (exists body, Relay.lambda_handler (JObj (relay_fields "FAILED" "job-1"))
                  (env_ok no_service "2024-01-01T12:00:05") (empty_world relay_store)
                = (Ok (mkResponse 200 body), empty_world relay_store))
  /\ (exists r w', Relay.lambda_handler (JObj (relay_fields "COMPLETED" "job-1"))
                     (env_puts_fail relay_media_service "2024-01-01T12:00:05") (empty_world relay_store)
                   = (Ok r, w') /\ statusCode r = 200).
Proof.
  split; [|split].
  - apply (proj1 relay_noop_and_copy_failure_200 (relay_fields "FAILED" "")
             [("TranscriptionJobName", JStr ""); ("TranscriptionJobStatus", JStr "FAILED")]).
    + left. reflexivity.
    + intros jn Hj. vm_compute in Hj. injection Hj as <-. reflexivity.
  - apply (proj1 (proj2 relay_noop_and_copy_failure_200) (relay_fields "FAILED" "job-1")
             [("TranscriptionJobName", JStr "job-1"); ("TranscriptionJobStatus", JStr "FAILED")]
             (JStr "job-1")); try reflexivity.
    intros s Hs. vm_compute in Hs. injection Hs as Hs. subst s. discriminate.
  - apply (proj2 (proj2 relay_noop_and_copy_failure_200) (relay_fields "COMPLETED" "job-1")
             [("TranscriptionJobName", JStr "job-1"); ("TranscriptionJobStatus", JStr "COMPLETED")]
             "job-1" (env_puts_fail relay_media_service "2024-01-01T12:00:05") (empty_world relay_store)
             [("TranscriptionJob", JObj relay_job)] relay_job relay_transcript
             "s3://transcribe-out/job-1.json" "transcribe-out" "/job-1.json");
      try (vm_compute; reflexivity); try discriminate.
    intros m Hm. vm_compute in Hm. injection Hm as <-. eexists. reflexivity.
Defined.

Lemma join_any_order_witness :
  match Completion.lambda_handler (completion_event KeyPhrases "job-1")
          (at_time unit_env "2024-01-01T12:10:00") (empty_world (output_store "1")) with
  | (Ok r1, w1) =>
    match Completion.lambda_handler (completion_event Sentiment "job-1")
            (at_time unit_env "2024-01-01T12:20:00") w1 with
    | (Ok r2, w2) =>
      match Completion.lambda_handler (completion_event Entities "job-1")
              (at_time unit_env "2024-01-01T12:30:00") w2 with
      | (Ok r3, w3) =>
          statusCode r1 = 200 /\ statusCode r2 = 200 /\ statusCode r3 = 200
          /\ st_find ("yerttle-tours", analysis_key ep_id) (objects w1) = None
          /\ st_find ("yerttle-tours", analysis_key ep_id) (objects w2) = None
          /\ st_find ("yerttle-tours", analysis_key ep_id) (objects w3)
             = Some (OJson (join_result unit_env ep_id (fun _ => output_uri) "2024-01-01T12:30:00"
                                        (output_store "1")))
          /\ exists t1 t2 t3,
               trace w1 = ([] ++ t1)%list /\ trace w2 = (trace w1 ++ t2)%list
               /\ trace w3 = (trace w2 ++ t3)%list
               /\ forall g, In (S3Head "yerttle-tours" (marker_key ep_id g)) (map fst t1)
                           /\ In (S3Head "yerttle-tours" (marker_key ep_id g)) (map fst t2)
                           /\ In (S3Head "yerttle-tours" (marker_key ep_id g)) (map fst t3)
      | _ => False
      end
    | _ => False
    end
  | _ => False
  end.
Proof.
  apply (join_any_order unit_env ep_id (fun _ => "job-1") (fun _ => output_uri)
           (empty_world (output_store "1")) KeyPhrases Sentiment Entities
           "2024-01-01T12:10:00" "2024-01-01T12:20:00" "2024-01-01T12:30:00").
  - intros o. reflexivity.
  - discriminate.
  - intros f. discriminate.
  - intros []; vm_compute; reflexivity.
  - intros []; vm_compute; reflexivity.
  - intros []; vm_compute; reflexivity.
  - vm_compute. reflexivity.
  - exists []. vm_compute. reflexivity.
  - repeat constructor; cbn; intuition discriminate.
Defined.


Lemma router_job_path_witness :
  Router.SYNC_API_LIMIT_BYTES < String.length (text_of_length 5001)
  /\ (job_outcome (env_ok start_service "2024-01-01T12:00:05") (text_of_length 5001)
       "episode1-20240101-120005"
       (log (empty_world (upload_store (text_of_length 5001)))
            (S3Get "yerttle-tours" (unquote_plus upload_key)) true)
       (Router.lambda_handler (JObj upload_fields) (env_ok start_service "2024-01-01T12:00:05")
          (empty_world (upload_store (text_of_length 5001))))
  /\ (forall id' f, st_find ("yerttle-tours", marker_key id' f)
                            (objects (snd (Router.lambda_handler (JObj upload_fields)
                                             (env_ok start_service "2024-01-01T12:00:05")
                                             (empty_world (upload_store (text_of_length 5001))))))
                   = st_find ("yerttle-tours", marker_key id' f) (upload_store (text_of_length 5001))))
  /\ Router.lambda_handler (JObj upload_fields) (env_puts_fail start_service "2024-01-01T12:00:05")
       (empty_world (upload_store (text_of_length 5001)))
     = (Ok (Completion.err_response 500 "Asynchronous analysis failed"),
        log (log (empty_world (upload_store (text_of_length 5001)))
                 (S3Get "yerttle-tours" (unquote_plus upload_key)) true)
            (S3Put "yerttle-tours" (input_key "episode1-20240101-120005")
                   (OText (text_of_length 5001))) false).
Proof.
  split; [apply Nat.ltb_lt; reflexivity|].
  split.
  - refine (proj1 (router_job_path upload_fields upload_detail upload_bucket upload_object
                     "yerttle-tours" upload_key (env_ok start_service "2024-01-01T12:00:05")
                     (empty_world (upload_store (text_of_length 5001)))
                     (transcript_doc (text_of_length 5001)) (text_of_length 5001)
                     "episode1-20240101-120005" _ _ _ _ _ _ _ _ _ _ _ _ _) _ _);
      first [ intros; reflexivity | apply Nat.ltb_lt; reflexivity
            | vm_compute; reflexivity | vm_compute; intro Hc; discriminate Hc ].
  - refine (proj2 (router_job_path upload_fields upload_detail upload_bucket upload_object
                     "yerttle-tours" upload_key (env_puts_fail start_service "2024-01-01T12:00:05")
                     (empty_world (upload_store (text_of_length 5001)))
                     (transcript_doc (text_of_length 5001)) (text_of_length 5001)
                     "episode1-20240101-120005" _ _ _ _ _ _ _ _ _ _ _ _ _) _);
      first [ intros; reflexivity | apply Nat.ltb_lt; reflexivity
            | vm_compute; reflexivity | vm_compute; intro Hc; discriminate Hc ].
Defined.

Lemma inline_aggregate_without_markers_witness :
  (exists ok w', Completion.aggregate_results_if_complete ep_id (env_ok no_service "2024-01-01T12:10:00")
                   (empty_world markers_store) = (Ok ok, w')
     /\ objects w' = st_put ("yerttle-tours", analysis_key ep_id)
                       (OJson (aggregate_value (env_ok no_service "2024-01-01T12:10:00") ep_id markers_store []))
                       markers_store)
  /\ match Router.process_synchronous_analysis "hello world" "episode1-20240101-120005" upload_key
             "yerttle-tours" (env_ok detect_service "2024-01-01T12:00:05") (empty_world []) with
     | (Ok r, w') =>
         statusCode r = 200 ->
         (exists o, st_find ("yerttle-tours", analysis_key "episode1-20240101-120005") (objects w') = Some o
                    /\ inline_record o)
         /\ (forall f, st_find ("yerttle-tours", marker_key "episode1-20240101-120005" f) (objects w') = None)
         /\ st_find ("yerttle-tours", metadata_key "episode1-20240101-120005") (objects w') = None
     | (Raise _, _) => True
     end.
Proof.
  split.
  - apply (proj1 inline_aggregate_without_markers ep_id (env_ok no_service "2024-01-01T12:10:00")
             (empty_world markers_store) []);
      [intros o; reflexivity | discriminate | vm_compute; reflexivity | vm_compute; reflexivity].
  - apply (proj2 inline_aggregate_without_markers "hello world" "episode1-20240101-120005" upload_key
             "yerttle-tours" (env_ok detect_service "2024-01-01T12:00:05") (empty_world []));
      [intros f; reflexivity | reflexivity].
Defined.

(** * Further properties of the handlers *)

(** ** Footprint rules *)

Section Footprint.
Variable R : store -> store -> Prop.
Hypothesis R_refl : forall st, R st st.
Hypothesis R_trans : forall a b c, R a b -> R b c -> R a c.
Variable e : env.

Lemma pr_ret {A} (a : A) : preserves R e (ret a).
Proof. intros w. apply R_refl. Qed.

Lemma pr_raise {A} x : preserves R e (@raise A x).
Proof. intros w. apply R_refl. Qed.

Lemma pr_call api req : preserves R e (call api req).
Proof. intros w. apply R_refl. Qed.

Lemma pr_s3 {A} o (run : store -> res A * store) :
  (forall st, R st (snd (run st))) -> preserves R e (s3 o run).
Proof.
  intros Hrun w. unfold s3. destruct (s3_fails e o); [apply R_refl|].
  specialize (Hrun (objects w)). destruct (run (objects w)). exact Hrun.
Qed.

Lemma pr_bind {A B} (m : M A) (k : A -> M B) :
  preserves R e m -> (forall a, preserves R e (k a)) -> preserves R e (bind m k).
Proof.
  intros Hm Hk w. specialize (Hm w). unfold bind.
  destruct (m e w) as [[a|x] w']; [|exact Hm]. eapply R_trans; [exact Hm | apply Hk].
Qed.

Lemma pr_bind_ask {B} (k : env -> M B) : preserves R e (k e) -> preserves R e (bind ask k).
Proof. intros Hk w. apply Hk. Qed.

Lemma pr_try {A} (m : M A) h :
  preserves R e m -> (forall x, preserves R e (h x)) -> preserves R e (try_except m h).
Proof.
  intros Hm Hh w. specialize (Hm w). unfold try_except.
  destruct (m e w) as [[a|x] w']; [exact Hm|]. eapply R_trans; [exact Hm | apply Hh].
Qed.

Lemma ku_pres {A} (ok : A -> Prop) m : preserves R e m -> kept_unless R ok e m.
Proof. intros Hm w. specialize (Hm w). destruct (m e w) as [[a|x] w']; [right|]; exact Hm. Qed.

Lemma ku_total {A} (ok : A -> Prop) m :
  (forall w, exists a w', m e w = (Ok a, w') /\ ok a) -> kept_unless R ok e m.
Proof. intros Hm w. destruct (Hm w) as (a & w' & -> & Ha). left. exact Ha. Qed.

Lemma ku_bind_ro {A B} (ok : B -> Prop) (m : M A) (k : A -> M B) :
  preserves R e m -> (forall a, kept_unless R ok e (k a)) -> kept_unless R ok e (bind m k).
Proof.
  intros Hm Hk w. specialize (Hm w). unfold bind.
  destruct (m e w) as [[a|x] w']; [|exact Hm].
  specialize (Hk a w'). destruct (k a e w') as [[b|y] w''].
  - destruct Hk as [Hk|Hk]; [left; exact Hk | right; eapply R_trans; eauto].
  - eapply R_trans; eauto.
Qed.

Lemma ku_bind_ask {B} (ok : B -> Prop) (k : env -> M B) :
  kept_unless R ok e (k e) -> kept_unless R ok e (bind ask k).
Proof. intros Hk w. apply Hk. Qed.

Lemma ku_try {A} (ok : A -> Prop) (m : M A) h :
  kept_unless R ok e m -> (forall x, kept_unless R ok e (h x)) -> kept_unless R ok e (try_except m h).
Proof.
  intros Hm Hh w. specialize (Hm w). unfold try_except.
  destruct (m e w) as [[a|x] w']; [exact Hm|].
  specialize (Hh x w'). destruct (h x e w') as [[b|y] w''].
  - destruct Hh as [Hh|Hh]; [left; exact Hh | right; eapply R_trans; eauto].
  - eapply R_trans; eauto.
Qed.

(** A computation whose raising runs keep [R], followed by one that always
    returns normally with a value satisfying [ok]. *)
Lemma ku_commit {A B} (ok : B -> Prop) (m : M A) (k : A -> M B) :
  kept_unless R (fun _ => True) e m ->
  (forall a w, exists b w', k a e w = (Ok b, w') /\ ok b) ->
  kept_unless R ok e (bind m k).
Proof.
  intros Hm Hk w. specialize (Hm w). unfold bind.
  destruct (m e w) as [[a|x] w']; [|exact Hm].
  destruct (Hk a w') as (b & w'' & -> & Hb). left. exact Hb.
Qed.

Lemma ku_put b k o : kept_unless R (fun _ => True) e (put_object b k o).
Proof.
  intros w. unfold put_object, s3. destruct (s3_fails e (S3Put b k o)); [apply R_refl|].
  left. exact I.
Qed.

End Footprint.

Lemma eq_trans' (a b c : store) : a = b -> b = c -> a = c.
Proof. intros; subst; reflexivity. Qed.

Lemma same_outside_refl P st : same_outside P st st.
Proof. intros k _. reflexivity. Qed.

Lemma same_outside_trans P a b c : same_outside P a b -> same_outside P b c -> same_outside P a c.
Proof. intros Hab Hbc k Hk. rewrite (Hbc k Hk). apply Hab, Hk. Qed.

Lemma same_outside_put (P : s3key -> Prop) k o st : P k -> same_outside P st (st_put k o st).
Proof.
  intros Hk k' Hk'. apply st_find_put_other. intros ->. exact (Hk' Hk).
Qed.

(** A written key lies in the allowed part of the store. *)
Ltac key_in :=
  cbv beta; unfold input_key, marker_key, metadata_key, analysis_key, SENTIMENT_PREFIX;
  first [ reflexivity
        | split; [reflexivity | apply starts_with_app]
        | left; key_in
        | right; key_in ].

(** The helpers below the handlers that only read, parse or call. *)
Ltac unfold_helpers :=
  progress unfold py_get, as_str, py_in, py_getitem, py_index0, py_len, head_object, get_object,
    list_objects, Completion.loads_obj, Completion.object_exists, Completion.read_json_from_s3,
    Completion.read_comprehend_output, Completion.event_facet, Router.transcript_of,
    Router.start_job, Relay.word_count.

(** Walks a computation built from the monad's combinators, splitting on
    every [match] and [if]; what is left are the store writes. *)
Ltac footprint_step Rr Rt :=
  cbv beta zeta;
  lazymatch goal with
  | |- forall _, _ => intro
  | |- preserves _ _ (bind ask _) => apply (pr_bind_ask _ _)
  | |- preserves _ _ (bind _ _) => apply (pr_bind _ Rt)
  | |- preserves _ _ (try_except _ _) => apply (pr_try _ Rt)
  | |- preserves _ _ (ret _) => apply (pr_ret _ Rr)
  | |- preserves _ _ (raise _) => apply (pr_raise _ Rr)
  | |- preserves _ _ (call _ _) => apply (pr_call _ Rr)
  | |- preserves _ _ (s3 _ _) =>
      apply (pr_s3 _ Rr); intros ?;
      repeat match goal with |- context [match ?x with _ => _ end] => destruct x end;
      cbn [snd]; first [apply Rr | apply same_outside_put; key_in | idtac]
  | |- preserves _ _ (match ?x with _ => _ end) => destruct x
  | |- preserves _ _ (put_object _ _ _) => unfold put_object
  | |- preserves _ _ _ => unfold_helpers
  end.

Ltac footprint Rr Rt := repeat footprint_step Rr Rt.

Ltac ok_goal :=
  cbv beta; cbn [statusCode fst snd];
  first [reflexivity | exact I | lia | (split; lia) | (intro; discriminate)].

(** A continuation that always returns normally: a [ret], or a
    [try_except] whose handler returns, followed by a [ret]. *)
Ltac total_goal :=
  intros; cbv beta;
  first [ do 2 eexists; split; [reflexivity | ok_goal]
        | unfold bind at 1; unfold try_except at 1;
          match goal with |- context [match ?m ?e ?w with _ => _ end] => destruct (m e w) as [[?|?] ?] end;
          (do 2 eexists; split; [reflexivity | ok_goal]) ].

(** The same walk for [kept_unless]: a read-only prefix is walked with
    [footprint]; a write must be followed by a normal return whose value
    satisfies the predicate. *)
Ltac ku_step Rr Rt :=
  cbv beta zeta;
  lazymatch goal with
  | |- forall _, _ => intro
  | |- kept_unless _ _ _ (bind ask _) => apply ku_bind_ask
  | |- kept_unless _ _ _ (try_except _ _) => apply (ku_try _ Rt)
  | |- kept_unless _ _ _ (ret _) => apply ku_pres; apply (pr_ret _ Rr)
  | |- kept_unless _ _ _ (raise _) => apply ku_pres; apply (pr_raise _ Rr)
  | |- kept_unless _ _ _ (put_object _ _ _) => apply (ku_put _ Rr)
  | |- kept_unless _ _ _ (match ?x with _ => _ end) => destruct x
  | |- kept_unless _ _ _ (bind _ _) =>
      first [ apply (ku_bind_ro _ Rt); [solve [footprint Rr Rt] | ]
            | apply ku_commit; [ | total_goal] ]
  | |- kept_unless _ _ _ _ => unfold_helpers
  end.

Ltac ku Rr Rt := repeat ku_step Rr Rt.

Ltac exec_run hyps :=
  repeat (cbv beta iota zeta delta [try_except bind py_get ret as_str ask head_object s3 call
                                   py_getitem raise log negb orb andb is_ok py_in Completion.event_facet];
          cbn [assoc truthy String.eqb Ascii.eqb Bool.eqb objects trace];
          first [hyps | progress (rewrite <- ?app_assoc; cbn [app])]).

Section Extras.
Context `{JsonCodec}.

(** The transcription starter never changes the object store: it only
    probes the upload and calls Transcribe. *)
Theorem start_never_writes : forall ev e w,
  objects (snd (Start.lambda_handler ev e w)) = objects w.
Proof.
  intros ev e w. symmetry. revert w. change (preserves eq e (Start.lambda_handler ev)).
  unfold Start.lambda_handler. footprint (@eq_refl store) eq_trans'.
Qed.

(** The completion join writes only objects of the configured bucket
    whose keys start with [sentiment/]. *)
Theorem completion_writes_only_sentiment_keys : forall ev e w,
  same_outside (pipeline_key e SENTIMENT_PREFIX) (objects w)
               (objects (snd (Completion.lambda_handler ev e w))).
Proof.
  intros ev e. change (preserves (same_outside (pipeline_key e SENTIMENT_PREFIX)) e
                                 (Completion.lambda_handler ev)).
  unfold Completion.lambda_handler, Completion.process_facet_job,
    Completion.aggregate_results_if_complete.
  footprint (same_outside_refl (pipeline_key e SENTIMENT_PREFIX))
            (same_outside_trans (pipeline_key e SENTIMENT_PREFIX)).
Qed.

Lemma completion_ku ev e :
  kept_unless eq (fun r => statusCode r = 200) e (Completion.lambda_handler ev).
Proof.
  unfold Completion.lambda_handler, Completion.process_facet_job,
    Completion.aggregate_results_if_complete.
  ku (@eq_refl store) eq_trans'.
Qed.

(** A completion event answered with anything but 200 leaves the object
    store as it was: every write of the handler is followed by a 200. *)
Theorem completion_non200_keeps_store : forall ev e w r w',
  Completion.lambda_handler ev e w = (Ok r, w') -> statusCode r <> 200 ->
  objects w' = objects w.
Proof.
  intros ev e w r w' Hrun Hne. pose proof (completion_ku ev e w) as Hku.
  rewrite Hrun in Hku. destruct Hku as [Hc|Hc]; [contradiction | symmetry; exact Hc].
Qed.

Lemma aggregate_ku id e :
  kept_unless eq (fun b => b = true) e (Completion.aggregate_results_if_complete id).
Proof.
  unfold Completion.aggregate_results_if_complete. ku (@eq_refl store) eq_trans'.
Qed.

(** [aggregate_results_if_complete] changes the store only when it answers
    [True]: an answer [False] (no id, a missing marker, or a failure caught
    by its handler) leaves every object as it was. *)
Theorem aggregate_false_keeps_store : forall id e w w',
  Completion.aggregate_results_if_complete id e w = (Ok false, w') -> objects w' = objects w.
Proof.
  intros id e w w' Hrun. pose proof (aggregate_ku id e w) as Hku.
  rewrite Hrun in Hku. destruct Hku as [Hc|Hc]; [discriminate Hc | symmetry; exact Hc].
Qed.

(** The only object [aggregate_results_if_complete] may change is the
    AggregateResult [sentiment/<id>-analysis.json] of the configured
    bucket. *)
Theorem aggregate_writes_only_analysis_key : forall id e w,
  same_outside (fun k => k = (bucket_name e, analysis_key id)) (objects w)
               (objects (snd (Completion.aggregate_results_if_complete id e w))).
Proof.
  intros id e. change (preserves (same_outside (fun k => k = (bucket_name e, analysis_key id))) e
                                 (Completion.aggregate_results_if_complete id)).
  unfold Completion.aggregate_results_if_complete.
  footprint (same_outside_refl (fun k => k = (bucket_name e, analysis_key id)))
            (same_outside_trans (fun k => k = (bucket_name e, analysis_key id))).
Qed.

(** The router writes only objects of the configured bucket under
    [sentiment/] (results and metadata) or [comprehend-input/] (staged
    text). *)
Theorem router_writes_only_pipeline_keys : forall ev e w,
  same_outside (fun k => pipeline_key e SENTIMENT_PREFIX k \/ pipeline_key e "comprehend-input/" k)
               (objects w) (objects (snd (Router.lambda_handler ev e w))).
Proof.
  intros ev e.
  change (preserves (same_outside (fun k => pipeline_key e SENTIMENT_PREFIX k
                                            \/ pipeline_key e "comprehend-input/" k)) e
                    (Router.lambda_handler ev)).
  unfold Router.lambda_handler, Router.process_synchronous_analysis,
    Router.process_asynchronous_analysis.
  footprint (same_outside_refl (fun k => pipeline_key e SENTIMENT_PREFIX k
                                         \/ pipeline_key e "comprehend-input/" k))
            (same_outside_trans (fun k => pipeline_key e SENTIMENT_PREFIX k
                                          \/ pipeline_key e "comprehend-input/" k)).
Qed.

(** The relay writes only objects of the configured bucket under
    [transcriptions/]. *)
Theorem relay_writes_only_transcriptions : forall ev e w,
  same_outside (pipeline_key e "transcriptions/") (objects w)
               (objects (snd (Relay.lambda_handler ev e w))).
Proof.
  intros ev e. change (preserves (same_outside (pipeline_key e "transcriptions/")) e
                                 (Relay.lambda_handler ev)).
  unfold Relay.lambda_handler.
  footprint (same_outside_refl (pipeline_key e "transcriptions/"))
            (same_outside_trans (pipeline_key e "transcriptions/")).
Qed.

Lemma relay_ku ev e :
  kept_unless eq (fun r => statusCode r = 200) e (Relay.lambda_handler ev).
Proof. unfold Relay.lambda_handler. ku (@eq_refl store) eq_trans'. Qed.

(** A relay answer other than 200 leaves the object store as it was: the
    only write, the copy, is always followed by a 200. *)
Theorem relay_non200_keeps_store : forall ev e w r w',
  Relay.lambda_handler ev e w = (Ok r, w') -> statusCode r <> 200 -> objects w' = objects w.
Proof.
  intros ev e w r w' Hrun Hne. pose proof (relay_ku ev e w) as Hku.
  rewrite Hrun in Hku. destruct Hku as [Hc|Hc]; [contradiction | symmetry; exact Hc].
Qed.

Lemma sync_status text id key bkt e w :
  exists r w', Router.process_synchronous_analysis text id key bkt e w = (Ok r, w')
               /\ (statusCode r = 200 \/ statusCode r = 500).
Proof.
  unfold Router.process_synchronous_analysis. apply try_total.
  - repeat (cbv beta zeta; lazymatch goal with
                               | |- only _ (bind _ _) => apply only_bind; intro
                               | |- only _ (ret _) => apply only_ret
                               end).
    left; reflexivity.
  - intros; do 2 eexists; split; [reflexivity | right; reflexivity].
Qed.

Lemma async_status text id key bkt e w :
  exists r w', Router.process_asynchronous_analysis text id key bkt e w = (Ok r, w')
               /\ (statusCode r = 202 \/ statusCode r = 500).
Proof.
  unfold Router.process_asynchronous_analysis. apply try_total.
  - repeat (cbv beta zeta; lazymatch goal with
                               | |- only _ (bind _ _) => apply only_bind; intro
                               | |- only _ (ret _) => apply only_ret
                               end).
    left; reflexivity.
  - intros; do 2 eexists; split; [reflexivity | right; reflexivity].
Qed.

Lemma router_ku_reject ev e :
  kept_unless eq (fun r => statusCode r <> 400 /\ statusCode r <> 404) e (Router.lambda_handler ev).
Proof.
  unfold Router.lambda_handler. ku (@eq_refl store) eq_trans'.
  all: apply ku_total; intros w0;
    match goal with
    | |- context [Router.process_synchronous_analysis ?t ?i ?k ?b] =>
        destruct (sync_status t i k b e w0) as (r & w' & Hr & Hs)
    | |- context [Router.process_asynchronous_analysis ?t ?i ?k ?b] =>
        destruct (async_status t i k b e w0) as (r & w' & Hr & Hs)
    end;
    exists r, w'; split; [exact Hr | lia].
Qed.

(** The router's rejections (400: malformed event or empty transcript;
    404: unreadable transcript) leave the object store as it was. *)
Theorem router_rejections_keep_store : forall ev e w r w',
  Router.lambda_handler ev e w = (Ok r, w') -> statusCode r = 400 \/ statusCode r = 404 ->
  objects w' = objects w.
Proof.
  intros ev e w r w' Hrun Hs. pose proof (router_ku_reject ev e w) as Hku.
  rewrite Hrun in Hku. destruct Hku as [Hc|Hc]; [lia | symmetry; exact Hc].
Qed.

Lemma router_ku_500 ev e :
  kept_unless (same_outside (pipeline_key e "comprehend-input/")) (fun r => statusCode r <> 500) e
              (Router.lambda_handler ev).
Proof.
  unfold Router.lambda_handler, Router.process_synchronous_analysis,
    Router.process_asynchronous_analysis.
  ku (same_outside_refl (pipeline_key e "comprehend-input/"))
     (same_outside_trans (pipeline_key e "comprehend-input/")).
Qed.

(** A router run answering 500 has changed nothing outside the staged
    text under [comprehend-input/]: no result, no metadata. *)
Theorem router_500_changes_only_staged_text : forall ev e w r w',
  Router.lambda_handler ev e w = (Ok r, w') -> statusCode r = 500 ->
  same_outside (pipeline_key e "comprehend-input/") (objects w) (objects w').
Proof.
  intros ev e w r w' Hrun Hs. pose proof (router_ku_500 ev e w) as Hku.
  rewrite Hrun in Hku. destruct Hku as [Hc|Hc]; [contradiction | exact Hc].
Qed.

(** An [.m4a] upload that the [head_object] probe finds starts the job
    [yerttle-<name>-<timestamp>] on [s3://<bucket>/<key>], with the output
    under [transcriptions/] in the same bucket, and answers 200 with those
    names; the store is untouched and exactly the probe and the start are
    recorded. *)
Theorem start_job_started : forall b rawkey e w kvs job,
  let key := unquote_plus rawkey in
  let name := Router.base_name key in
  let job_name := "yerttle-" ++ name ++ "-" ++ now_stamp e in
  let media := "s3://" ++ b ++ "/" ++ key in
  let out := "transcriptions/" ++ name ++ "-" ++ now_stamp e ++ ".json" in
  b <> "" -> key <> "" -> ends_with ".m4a" (Start.lower key) = true ->
  s3_fails e (S3Head b key) = false -> is_some (st_find (b, key) (objects w)) = true ->
  service e "start_transcription_job" (Start.start_request job_name media b out) = Ok (JObj kvs) ->
  assoc "TranscriptionJob" kvs = Some job ->
  Start.lambda_handler (s3_event b rawkey) e w
  = (Ok (mkResponse 200 (JObj [("message", JStr "Transcription job started successfully");
                               ("jobName", JStr job_name);
                               ("mediaUri", JStr media);
                               ("outputLocation", JStr ("s3://" ++ b ++ "/" ++ out))])),
     mkWorld (objects w) (trace w ++ [(S3Head b key, true);
                                      (Call "start_transcription_job"
                                            (Start.start_request job_name media b out), true)])).
Proof.
  intros b rawkey e w kvs job key name job_name media out Hb Hk Hm4a Hhead Hfind Hsvc Hjob.
  subst key name job_name media out.
  pose proof (proj2 (String.eqb_neq _ _) Hb) as Hb'.
  pose proof (proj2 (String.eqb_neq _ _) Hk) as Hk'.
  destruct (st_find (b, unquote_plus rawkey) (objects w)) as [o|] eqn:Hf; [|discriminate Hfind].
  unfold Start.lambda_handler, s3_event.
  exec_run ltac:(first [rewrite Hb' | rewrite Hk' | rewrite Hm4a | rewrite Hhead | rewrite Hf
                        | rewrite Hsvc | rewrite Hjob]).
  reflexivity.
Qed.

(** When Transcribe refuses the start, the exception reaches the handler's
    [except] clauses: a [BadRequestException] answers 400, a
    [ConflictException] 409, anything else 500; the store is untouched. *)
Theorem start_call_failure_status : forall b rawkey e w x,
  let key := unquote_plus rawkey in
  let name := Router.base_name key in
  let req := Start.start_request ("yerttle-" ++ name ++ "-" ++ now_stamp e)
               ("s3://" ++ b ++ "/" ++ key) b
               ("transcriptions/" ++ name ++ "-" ++ now_stamp e ++ ".json") in
  b <> "" -> key <> "" -> ends_with ".m4a" (Start.lower key) = true ->
  s3_fails e (S3Head b key) = false -> is_some (st_find (b, key) (objects w)) = true ->
  service e "start_transcription_job" req = Raise x ->
  exists r, Start.lambda_handler (s3_event b rawkey) e w
            = (Ok r, mkWorld (objects w) (trace w ++ [(S3Head b key, true);
                                                      (Call "start_transcription_job" req, false)]))
    /\ statusCode r = match x with
                      | BadRequestException => 400
                      | ClientError what => if String.eqb what "ConflictException" then 409 else 500
                      | PyError _ => 500
                      end.
Proof.
  intros b rawkey e w x key name req Hb Hk Hm4a Hhead Hfind Hsvc.
  subst key name req.
  pose proof (proj2 (String.eqb_neq _ _) Hb) as Hb'.
  pose proof (proj2 (String.eqb_neq _ _) Hk) as Hk'.
  destruct (st_find (b, unquote_plus rawkey) (objects w)) as [o|] eqn:Hf; [|discriminate Hfind].
  unfold Start.lambda_handler, s3_event.
  exec_run ltac:(first [rewrite Hb' | rewrite Hk' | rewrite Hm4a | rewrite Hhead | rewrite Hf
                        | rewrite Hsvc]).
  destruct x as [what| |what]; [destruct (String.eqb what "ConflictException")|..];
    eexists; split; reflexivity.
Qed.

(** An upload whose key does not end in [.m4a] (in any letter case) is
    refused with 400 before any request: the run leaves the world as it
    was. *)
Theorem start_rejects_non_m4a : forall b rawkey e w,
  b <> "" -> unquote_plus rawkey <> "" -> ends_with ".m4a" (Start.lower (unquote_plus rawkey)) = false ->
  Start.lambda_handler (s3_event b rawkey) e w
  = (Ok (Completion.err_response 400 "File must be .m4a format"), w).
Proof.
  intros b rawkey e w Hb Hk Hm4a.
  pose proof (proj2 (String.eqb_neq _ _) Hb) as Hb'.
  pose proof (proj2 (String.eqb_neq _ _) Hk) as Hk'.
  unfold Start.lambda_handler, s3_event.
  exec_run ltac:(first [rewrite Hb' | rewrite Hk' | rewrite Hm4a]).
  reflexivity.
Qed.

(** An [.m4a] upload that the existence probe does not find (the object
    is missing or the request fails) is answered 404 after that one probe;
    Transcribe is not called. *)
Theorem start_missing_upload_404 : forall b rawkey e w,
  let key := unquote_plus rawkey in
  b <> "" -> key <> "" -> ends_with ".m4a" (Start.lower key) = true ->
  s3_fails e (S3Head b key) = true \/ st_find (b, key) (objects w) = None ->
  Start.lambda_handler (s3_event b rawkey) e w
  = (Ok (Completion.err_response 404 "File not found"), log w (S3Head b key) false).
Proof.
  intros b rawkey e w key Hb Hk Hm4a Hmiss. subst key.
  pose proof (proj2 (String.eqb_neq _ _) Hb) as Hb'.
  pose proof (proj2 (String.eqb_neq _ _) Hk) as Hk'.
  unfold Start.lambda_handler, s3_event.
  destruct (s3_fails e (S3Head b (unquote_plus rawkey))) eqn:Hf.
  - exec_run ltac:(first [rewrite Hb' | rewrite Hk' | rewrite Hm4a | rewrite Hf]).
    reflexivity.
  - destruct Hmiss as [Hc|Hnone]; [discriminate Hc|].
    exec_run ltac:(first [rewrite Hb' | rewrite Hk' | rewrite Hm4a | rewrite Hf | rewrite Hnone]).
    reflexivity.
Qed.

Lemma lower_app a c : Start.lower (a ++ c) = (Start.lower a ++ Start.lower c)%string.
Proof. induction a as [|x a IH]; cbn; [reflexivity | now rewrite IH]. Qed.

Lemma ends_with_app s a : ends_with s (a ++ s) = true.
Proof. unfold ends_with. rewrite rev_str_app. apply starts_with_app. Qed.

(** The format check ignores letter case: a key whose extension lowers to
    [.m4a] ([.M4A], [.M4a], ...) passes it, whatever precedes it. *)
Theorem start_extension_any_case : forall n ext,
  Start.lower ext = ".m4a" -> ends_with ".m4a" (Start.lower (n ++ ext)) = true.
Proof. intros n ext Hext. rewrite lower_app, Hext. apply ends_with_app. Qed.

(** A completion event of a job whose status is anything but [COMPLETED]
    is acknowledged with 200 ([no action taken]) without any request: the
    world is left as it was. *)
Theorem completion_not_completed_noop : forall kvs dk jid e w,
  assoc "detail" kvs = Some (JObj dk) -> assoc "JobId" dk = Some jid -> truthy jid = true ->
  match assoc "JobStatus" dk with Some (JStr s) => s <> "COMPLETED" | _ => True end ->
  Completion.lambda_handler (JObj kvs) e w
  = (Ok (mkResponse 200 (JObj [("message", JStr "no action taken"); ("jobId", jid)])), w).
Proof.
  intros kvs dk jid e w Hd Hj Ht Hs. unfold Completion.lambda_handler.
  destruct (assoc "JobStatus" dk) as [st|] eqn:Hst.
  - destruct st as [| | |s| |];
      try (exec_run ltac:(first [rewrite Hd | rewrite Hj | rewrite Ht | rewrite Hst]); reflexivity).
    pose proof (proj2 (String.eqb_neq _ _) Hs) as Hs'.
    exec_run ltac:(first [rewrite Hd | rewrite Hj | rewrite Ht | rewrite Hst | rewrite Hs']).
    reflexivity.
  - exec_run ltac:(first [rewrite Hd | rewrite Hj | rewrite Ht | rewrite Hst]). reflexivity.
Qed.

(** A completed job whose [detail-type] names none of the three facets is
    refused with 400 ([Unknown job type]) without any request. *)
Theorem completion_unknown_type_400 : forall kvs dk jid t e w,
  assoc "detail" kvs = Some (JObj dk) -> assoc "JobId" dk = Some jid -> truthy jid = true ->
  assoc "JobStatus" dk = Some (JStr "COMPLETED") -> assoc "detail-type" kvs = Some (JStr t) ->
  contains "Sentiment" t = false -> contains "Entities" t = false -> contains "Key Phrases" t = false ->
  Completion.lambda_handler (JObj kvs) e w = (Ok (Completion.err_response 400 "Unknown job type"), w).
Proof.
  intros kvs dk jid t e w Hd Hj Ht Hst Hty H1 H2 H3. unfold Completion.lambda_handler.
  exec_run ltac:(first [rewrite Hd | rewrite Hj | rewrite Ht | rewrite Hst | rewrite Hty
                        | rewrite H1 | rewrite H2 | rewrite H3]).
  reflexivity.
Qed.

(** Decoding a job name: removing the facet's prefix from
    [<prefix><id>] gives back [id] when [id] does not itself contain the
    prefix. *)
Theorem job_name_decode_round_trip : forall f id,
  contains (job_prefix f) id = false -> py_replace (job_prefix f) "" (job_prefix f ++ id) = id.
Proof.
  intros f id Hc.
  assert (Hne : String.eqb (job_prefix f) "" = false) by (destruct f; reflexivity).
  assert (Hlen : exists n, String.length (job_prefix f ++ id) = S n)
    by (destruct f; eexists; reflexivity).
  destruct Hlen as [n Hn].
  assert (Hcons : exists c t, (job_prefix f ++ id)%string = String c t)
    by (destruct f; do 2 eexists; reflexivity).
  destruct Hcons as (c & t & Hct).
  unfold py_replace. rewrite Hne, Hn. cbn [replace_aux]. rewrite Hct. rewrite <- Hct.
  rewrite starts_with_app, drop_app. cbn [append]. apply replace_aux_absent, Hc.
Qed.

Lemma start_job_spec f id i o e w :
  Router.start_job f id i o e w
  = (Ok (started_id e f id i o),
     log w (Call (Router.start_api f) (Router.start_request f id i o))
         (is_ok (service e (Router.start_api f) (Router.start_request f id i o)))).
Proof.
  unfold Router.start_job, started_id, try_except, bind, call, py_getitem, ret, raise.
  destruct (service e (Router.start_api f) (Router.start_request f id i o)) as [[| | | | |kvs]|x];
    try reflexivity.
  destruct (assoc "JobId" kvs); reflexivity.
Qed.

(** In the job path, when the text is staged but the Metadata record
    cannot be written, the answer is 500 and the staged text stays in the
    store: nothing removes it. *)
Theorem async_metadata_failure_keeps_staged_text : forall text id key bkt e w,
  s3_fails e (S3Put (bucket_name e) (input_key id) (OText text)) = false ->
  (forall o, s3_fails e (S3Put (bucket_name e) (metadata_key id) o) = true) ->
  exists t, Router.process_asynchronous_analysis text id key bkt e w
            = (Ok (Completion.err_response 500 "Asynchronous analysis failed"),
               mkWorld (st_put (bucket_name e, input_key id) (OText text) (objects w))
                       (trace w ++ t)).
Proof.
  intros text id key bkt e w Hin Hmeta.
  unfold Router.process_asynchronous_analysis.
  cbv beta iota zeta delta [try_except bind ask ret].
  rewrite put_object_ok by exact Hin. cbv beta iota zeta.
  rewrite !start_job_spec. cbv beta iota zeta.
  rewrite put_object_fail by apply Hmeta. cbv beta iota zeta.
  eexists. unfold log. cbn [objects trace]. rewrite <- !app_assoc. reflexivity.
Qed.

(** In the job path with both writes succeeding, the [jobIds] of the 202
    answer and of the stored Metadata record are the same dict: the
    [JobId] each start returned, under [sentiment], [entities] and
    [keyPhrases] in that order, a start that failed leaving its entry out. *)
Theorem async_job_ids_recorded : forall text id key bkt e w,
  let input_uri := "s3://" ++ bucket_name e ++ "/" ++ input_key id in
  let output_uri := "s3://" ++ bucket_name e ++ "/comprehend-output/" ++ id ++ "/" in
  let ids := JObj (started_id e Sentiment id input_uri output_uri
                   ++ started_id e Entities id input_uri output_uri
                   ++ started_id e KeyPhrases id input_uri output_uri) in
  s3_fails e (S3Put (bucket_name e) (input_key id) (OText text)) = false ->
  (forall o, s3_fails e (S3Put (bucket_name e) (metadata_key id) o) = false) ->
  exists r w' meta,
    Router.process_asynchronous_analysis text id key bkt e w = (Ok r, w')
    /\ statusCode r = 202 /\ json_field (body r) "jobIds" = Some ids
    /\ st_find (bucket_name e, metadata_key id) (objects w') = Some (OJson meta)
    /\ json_field meta "jobIds" = Some ids.
Proof.
  intros text id key bkt e w input_uri output_uri ids Hin Hmeta.
  unfold Router.process_asynchronous_analysis.
  cbv beta iota zeta delta [try_except bind ask ret].
  rewrite put_object_ok by exact Hin. cbv beta iota zeta.
  rewrite !start_job_spec. cbv beta iota zeta.
  rewrite put_object_ok by apply Hmeta. cbv beta iota zeta.
  do 3 eexists. split; [reflexivity|]. cbn [objects statusCode body].
  split; [reflexivity|]. split; [reflexivity|].
  split; [apply st_find_put_same | reflexivity].
Qed.

Lemma break_at_app p a c r :
  forallb (fun x => negb (p x)) (list_ascii_of_string a) = true -> p c = true ->
  break_at p (a ++ String c r) = (a, String c r).
Proof.
  intros Ha Hc. induction a as [|x a IH]; cbn in *.
  - now rewrite Hc.
  - apply andb_true_iff in Ha as [Hx Ha]. apply negb_true_iff in Hx. now rewrite Hx, IH.
Qed.

Lemma break_at_none p s :
  forallb (fun x => negb (p x)) (list_ascii_of_string s) = true -> break_at p s = (s, EmptyString).
Proof.
  intros Hs. induction s as [|x s IH]; cbn in *; [reflexivity|].
  apply andb_true_iff in Hs as [Hx Hs]. apply negb_true_iff in Hx. now rewrite Hx, IH.
Qed.

Lemma forallb_weaken (p q : ascii -> bool) l :
  (forall c, p c = true -> q c = true) -> forallb p l = true -> forallb q l = true.
Proof.
  intros Hpq. induction l as [|c l IH]; cbn; [reflexivity|].
  intros Hl. apply andb_true_iff in Hl as [Hc Hl]. now rewrite (Hpq c Hc), IH.
Qed.

Lemma remove_chars_app p a b : remove_chars p (a ++ b) = (remove_chars p a ++ remove_chars p b)%string.
Proof. induction a as [|c a IH]; cbn; [reflexivity|]. destruct (p c); cbn; now rewrite IH. Qed.

Lemma remove_chars_none p s :
  forallb (fun c => negb (p c)) (list_ascii_of_string s) = true -> remove_chars p s = s.
Proof.
  induction s as [|c s IH]; cbn; [reflexivity|].
  intros Hl. apply andb_true_iff in Hl as [Hc Hl]. apply negb_true_iff in Hc. now rewrite Hc, IH.
Qed.

Lemma has_char_none c s :
  forallb (fun x => negb (Ascii.eqb x c)) (list_ascii_of_string s) = true -> has_char c s = false.
Proof.
  unfold has_char. induction s as [|x s IH]; cbn; [reflexivity|].
  intros Hl. apply andb_true_iff in Hl as [Hx Hl]. apply negb_true_iff in Hx.
  rewrite Ascii.eqb_sym, Hx. exact (IH Hl).
Qed.

Lemma s3_bucket_char_ascii c :
  s3_bucket_char c = true -> Nat.ltb (nat_of_ascii c) 128 = true
  /\ negb (Ascii.eqb c "/" || Ascii.eqb c "?" || Ascii.eqb c "#") = true
  /\ negb (Ascii.eqb c "[") = true /\ negb (Ascii.eqb c "]") = true
  /\ negb (unsafe_url_byte c) = true.
Proof.
  destruct c as [[] [] [] [] [] [] [] []]; vm_compute; first [discriminate | tauto].
Qed.

Lemma parse_s3_uri : forall nfkc b k,
  forallb s3_bucket_char (list_ascii_of_string b) = true ->
  forallb (fun c => negb (Ascii.eqb c "?" || Ascii.eqb c "#" || unsafe_url_byte c))
          (list_ascii_of_string k) = true ->
  starts_with "/" k = false ->
  urlparse nfkc ("s3://" ++ b ++ "/" ++ k) = Some (b, "/" ++ k) /\ lstrip_slash ("/" ++ k) = k.
Proof.
  intros nfkc b k Hb Hk Hs.
  assert (Hb' : forall q, (forall c, s3_bucket_char c = true -> q c = true) ->
                          forallb q (list_ascii_of_string b) = true)
    by (intros q Hq; exact (forallb_weaken _ _ _ Hq Hb)).
  split.
  - unfold urlparse, urlsplit.
    change (lstrip_with c0_control_or_space ("s3://" ++ b ++ "/" ++ k))
      with ("s3://" ++ b ++ "/" ++ k)%string.
    rewrite !remove_chars_app.
    rewrite (remove_chars_none _ b) by (apply Hb'; apply s3_bucket_char_ascii).
    rewrite (remove_chars_none _ k)
      by (revert Hk; apply forallb_weaken; intros c Hc;
          apply negb_true_iff in Hc; apply orb_false_iff in Hc as [_ Hc];
          apply negb_true_iff; exact Hc).
    change (remove_chars unsafe_url_byte "s3://" ++ b ++ remove_chars unsafe_url_byte "/" ++ k)%string
      with ("s3" ++ String ":" ("//" ++ b ++ "/" ++ k))%string.
    rewrite (break_at_app (fun c => Ascii.eqb c ":") "s3" ":" _ eq_refl eq_refl).
    replace (valid_scheme "s3") with true by reflexivity.
    cbv beta iota zeta. cbn [append].
    rewrite (break_at_app _ b "/" k) by (reflexivity || (apply Hb'; apply s3_bucket_char_ascii)).
    cbv beta iota zeta.
    rewrite (has_char_none "[" b) by (apply Hb'; apply s3_bucket_char_ascii).
    rewrite (has_char_none "]" b) by (apply Hb'; apply s3_bucket_char_ascii).
    unfold netloc_ok.
    replace (is_ascii b) with true
      by (symmetry; apply Hb'; apply s3_bucket_char_ascii).
    rewrite orb_true_r. cbv beta iota zeta.
    rewrite (break_at_none _ (String "/" k))
      by (cbn [list_ascii_of_string forallb]; apply andb_true_iff; split; [reflexivity|];
          revert Hk; apply forallb_weaken; intros c Hc;
          apply negb_true_iff in Hc; apply orb_false_iff in Hc as [Hc _];
          apply negb_true_iff; exact Hc).
    reflexivity.
  - destruct k as [|c k]; [reflexivity|].
    destruct (Ascii.eqb_spec c "/") as [->|Hc]; [discriminate Hs|].
    cbn. apply Ascii.eqb_neq in Hc. now rewrite Hc.
Qed.

(** The URIs the pipeline builds, [s3://<bucket>/<key>], parse back into
    the bucket (the [netloc]) and, after the leading [/] is stripped from
    the path, the key. *)
Theorem s3_uri_round_trip : forall nfkc b k,
  forallb s3_bucket_char (list_ascii_of_string b) = true ->
  forallb (fun c => negb (Ascii.eqb c "?" || Ascii.eqb c "#" || unsafe_url_byte c))
          (list_ascii_of_string k) = true ->
  starts_with "/" k = false ->
  urlparse nfkc ("s3://" ++ b ++ "/" ++ k) = Some (b, "/" ++ k) /\ lstrip_slash ("/" ++ k) = k.
Proof. exact parse_s3_uri. Qed.

Lemma split_on_nonempty sep s : split_on sep s <> [].
Proof.
  destruct s as [|c s]; cbn; [discriminate|].
  destruct (Ascii.eqb c sep); [discriminate|]. destruct (split_on sep s); discriminate.
Qed.

Lemma split_on_app sep a r : split_on sep (a ++ String sep r) = (split_on sep a ++ split_on sep r)%list.
Proof.
  induction a as [|c a IH]; cbn.
  - now rewrite Ascii.eqb_refl.
  - destruct (Ascii.eqb c sep); [now rewrite IH|]. rewrite IH.
    destruct (split_on sep a) eqn:E; [exfalso; exact (split_on_nonempty sep a E) | reflexivity].
Qed.

Lemma split_on_no_sep sep s :
  forallb (fun c => negb (Ascii.eqb c sep)) (list_ascii_of_string s) = true -> split_on sep s = [s].
Proof.
  induction s as [|c s IH]; cbn; intros Hs; [reflexivity|].
  apply andb_true_iff in Hs as [Hc Hs]. apply negb_true_iff in Hc. now rewrite Hc, IH.
Qed.

Lemma concat_cons_char sep c y ys :
  String.concat sep (String c y :: ys) = String c (String.concat sep (y :: ys)).
Proof. destruct ys; reflexivity. Qed.

Lemma concat_split sep s : String.concat (String sep EmptyString) (split_on sep s) = s.
Proof.
  induction s as [|c s IH]; cbn; [reflexivity|].
  destruct (Ascii.eqb_spec c sep) as [->|Hc].
  - destruct (split_on sep s) as [|y ys] eqn:E; [exfalso; exact (split_on_nonempty sep s E)|].
    change (String sep (String.concat (String sep EmptyString) (y :: ys)) = String sep s).
    now rewrite IH.
  - destruct (split_on sep s) as [|y ys] eqn:E; [exfalso; exact (split_on_nonempty sep s E)|].
    rewrite concat_cons_char. now rewrite IH.
Qed.


Lemma base_name_of_last key n ext :
  forallb (fun c => negb (Ascii.eqb c "/" || Ascii.eqb c ".")) (list_ascii_of_string ext) = true ->
  last (split_on "/" key) EmptyString = (n ++ "." ++ ext)%string ->
  Router.base_name key = n.
Proof.
  intros Hext Hlast. unfold Router.base_name. rewrite Hlast. cbn [append].
  rewrite split_on_app.
  rewrite (split_on_no_sep "." ext)
    by (apply (forallb_weaken _ _ _ (fun c H => H)) in Hext;
        refine (forallb_weaken _ _ _ _ Hext); intros c Hc;
        destruct (Ascii.eqb c "/"), (Ascii.eqb c "."); cbn in *; congruence).
  pose proof (concat_split "." n) as Hn.
  destruct (split_on "." n) as [|y ys] eqn:E; [exfalso; exact (split_on_nonempty "." n E)|].
  rewrite <- app_comm_cons.
  destruct ys as [|z zs].
  - cbn. exact Hn.
  - cbn [app]. rewrite app_comm_cons, app_comm_cons, removelast_last. exact Hn.
Qed.

(** The base name the starter and the router derive from a key,
    [key.split('/')[-1].rsplit('.', 1)[0]], gives back [n] for the key
    [n.ext] in any directory, when [n] has no [/] and the extension has
    neither [/] nor [.]. *)
Theorem base_name_round_trip : forall n ext,
  forallb (fun c => negb (Ascii.eqb c "/")) (list_ascii_of_string n) = true ->
  forallb (fun c => negb (Ascii.eqb c "/" || Ascii.eqb c ".")) (list_ascii_of_string ext) = true ->
  Router.base_name (n ++ "." ++ ext) = n
  /\ forall dir, Router.base_name (dir ++ "/" ++ n ++ "." ++ ext) = n.
Proof.
  intros n ext Hn Hext.
  assert (Hrest : split_on "/" (n ++ "." ++ ext) = [(n ++ "." ++ ext)%string]).
  { apply split_on_no_sep. rewrite list_ascii_of_string_app, forallb_app, Hn. cbn.
    refine (forallb_weaken _ _ _ _ Hext). intros c Hc.
    destruct (Ascii.eqb c "/"); cbn in *; congruence. }
  split.
  - apply (base_name_of_last _ n ext Hext). now rewrite Hrest.
  - intros dir. apply (base_name_of_last _ n ext Hext).
    change (dir ++ "/" ++ n ++ "." ++ ext)%string with (dir ++ String "/" (n ++ "." ++ ext))%string.
    rewrite split_on_app, Hrest. apply last_last.
Qed.

(** When the [get_transcription_job] lookup raises, the exception reaches
    the handler's [except] clauses: [BadRequestException] answers 400,
    anything else 500, and nothing but the failed call is recorded. *)
Theorem relay_lookup_failure_status : forall kvs dk name x e w,
  assoc "detail" kvs = Some (JObj dk) ->
  assoc "TranscriptionJobName" dk = Some (JStr name) -> name <> "" ->
  assoc "TranscriptionJobStatus" dk = Some (JStr "COMPLETED") ->
  service e "get_transcription_job" (JObj [("TranscriptionJobName", JStr name)]) = Raise x ->
  exists r, Relay.lambda_handler (JObj kvs) e w
            = (Ok r, log w (Call "get_transcription_job"
                                 (JObj [("TranscriptionJobName", JStr name)])) false)
    /\ statusCode r = match x with BadRequestException => 400 | _ => 500 end.
Proof.
  intros kvs dk name x e w Hd Hn Hne Hst Hsvc.
  pose proof (proj2 (String.eqb_neq _ _) Hne) as Hne'.
  unfold Relay.lambda_handler.
  exec_run ltac:(first [rewrite Hd | rewrite Hn | rewrite Hne' | rewrite Hst | rewrite Hsvc]).
  destruct x; eexists; split; reflexivity.
Qed.

(** A completed job whose transcript sits at [s3://b/k] in the store is
    copied, as the parsed document, to [transcriptions/<job name>.json] in
    the pipeline bucket, and the handler answers 200. *)
Theorem relay_copies_transcript : forall kvs dk name rkvs tj tr mkv b k doc rk res t0 rest text e w,
  assoc "detail" kvs = Some (JObj dk) ->
  assoc "TranscriptionJobName" dk = Some (JStr name) -> name <> "" ->
  assoc "TranscriptionJobStatus" dk = Some (JStr "COMPLETED") ->
  service e "get_transcription_job" (JObj [("TranscriptionJobName", JStr name)]) = Ok (JObj rkvs) ->
  assoc "TranscriptionJob" rkvs = Some (JObj tj) ->
  assoc "Transcript" tj = Some (JObj tr) ->
  assoc "Media" tj = Some (JObj mkv) ->
  assoc "TranscriptFileUri" tr = Some (JStr ("s3://" ++ b ++ "/" ++ k)) ->
  forallb s3_bucket_char (list_ascii_of_string b) = true ->
  forallb (fun c => negb (Ascii.eqb c "?" || Ascii.eqb c "#" || unsafe_url_byte c))
          (list_ascii_of_string k) = true ->
  starts_with "/" k = false ->
  (forall o, s3_fails e o = false) ->
  st_find (b, k) (objects w) = Some (OJson doc) ->
  doc = JObj rk -> assoc "results" rk = Some (JObj res) ->
  assoc "transcripts" res = Some (JArr (JObj t0 :: rest)) ->
  assoc "transcript" t0 = Some (JStr text) ->
  exists r w', Relay.lambda_handler (JObj kvs) e w = (Ok r, w')
    /\ statusCode r = 200
    /\ st_find (bucket_name e, "transcriptions/" ++ name ++ ".json") (objects w') = Some (OJson doc).
Proof.
  intros kvs dk name rkvs tj tr mkv b k doc rk res t0 rest text e w
         Hd Hn Hne Hst Hsvc Htj Htr Hmedia Huri Hb Hk Hs Hnf Hf Hdoc Hres Hts Ht.
  pose proof (proj2 (String.eqb_neq _ _) Hne) as Hne'.
  destruct (parse_s3_uri (unicode_nfkc e) b k Hb Hk Hs) as [Hparse Hstrip].
  assert (Huri' : String.eqb ("s3://" ++ b ++ "/" ++ k) "" = false) by reflexivity.
  unfold Relay.lambda_handler.
  exec_run ltac:(first [rewrite Hd | rewrite Hn | rewrite Hne' | rewrite Hst | rewrite Hsvc
                        | rewrite Htj | rewrite Htr | rewrite Hmedia | rewrite Huri | rewrite Huri'
                        | rewrite Hparse | rewrite Hstrip | rewrite Hnf | rewrite Hf
                        | progress unfold get_object, Completion.loads_obj, Router.transcript_of, py_index0,
                                          Relay.word_count, Relay.sliceable, put_object
                        | rewrite Hdoc | rewrite Hres | rewrite Hts | rewrite Ht
                        | match goal with |- context [String.eqb text ""] =>
                            destruct (String.eqb text "") end]);
  do 2 eexists; (split; [reflexivity | split; [reflexivity | apply st_find_put_same]]).
Qed.

End Extras.

(** ** Runs of the extra properties on concrete inputs *)

Ltac wit := first [ reflexivity | discriminate | exact I
                  | (let Hc := fresh "Hc" in intro Hc; vm_compute in Hc; discriminate Hc)
                  | (vm_compute; reflexivity) | (left; reflexivity) | (right; reflexivity)
                  | (intros ?; reflexivity) ].

(** Evaluates a copy of the run equation [Hrun] and names its results. *)
Ltac settle Hrun :=
  let Hc := fresh "Hc" in
  pose proof Hrun as Hc; vm_compute in Hc;
  first [discriminate Hc | injection Hc as <- <-]; cbv beta iota.

Lemma completion_non200_keeps_store_witness :
  match Completion.lambda_handler (completion_event Sentiment "job-1")
          (env_ok no_service "2024-01-01T12:10:00") (empty_world two_markers_store) with
  | (Ok r, w') => statusCode r = 500 /\ objects w' = two_markers_store
  | _ => False
  end.
Proof.
  match goal with |- match ?m with _ => _ end => destruct m as [[r|x] w'] eqn:Hrun end;
    settle Hrun.
  split; [reflexivity | apply (completion_non200_keeps_store _ _ _ _ _ Hrun); wit].
Defined.

Lemma aggregate_false_keeps_store_witness :
  match Completion.aggregate_results_if_complete ep_id unit_env (empty_world two_markers_store) with
  | (Ok false, w') => objects w' = two_markers_store
  | _ => False
  end.
Proof.
  match goal with |- match ?m with _ => _ end => destruct m as [[r|x] w'] eqn:Hrun end;
    settle Hrun.
  apply (aggregate_false_keeps_store _ _ _ _ Hrun).
Defined.

Lemma relay_non200_keeps_store_witness :
  match Relay.lambda_handler (JObj (relay_fields "COMPLETED" "job-1"))
          (env_ok no_service "2024-01-01T12:10:00") (empty_world relay_store) with
  | (Ok r, w') => statusCode r = 500 /\ objects w' = relay_store
  | _ => False
  end.
Proof.
  match goal with |- match ?m with _ => _ end => destruct m as [[r|x] w'] eqn:Hrun end;
    settle Hrun.
  split; [reflexivity | apply (relay_non200_keeps_store _ _ _ _ _ Hrun); wit].
Defined.

Lemma router_rejections_keep_store_witness :
  match Router.lambda_handler (JObj upload_fields) (env_ok detect_service "2024-01-01T12:00:05")
          (empty_world (upload_store "")) with
  | (Ok r, w') => statusCode r = 400 /\ objects w' = upload_store ""
  | _ => False
  end.
Proof.
  match goal with |- match ?m with _ => _ end => destruct m as [[r|x] w'] eqn:Hrun end;
    settle Hrun.
  split; [reflexivity | apply (router_rejections_keep_store _ _ _ _ _ Hrun); wit].
Defined.

Lemma router_500_changes_only_staged_text_witness :
  match Router.lambda_handler (JObj upload_fields)
          (env_metadata_fail start_service "2024-01-01T12:00:05")
          (empty_world (upload_store (text_of_length 5001))) with
  | (Ok r, w') =>
      statusCode r = 500
      /\ st_find ("yerttle-tours", input_key "episode1-20240101-120005") (objects w')
         = Some (OText (text_of_length 5001))
      /\ same_outside (pipeline_key (env_metadata_fail start_service "2024-01-01T12:00:05")
                                    "comprehend-input/")
                      (upload_store (text_of_length 5001)) (objects w')
  | _ => False
  end.
Proof.
  match goal with |- match ?m with _ => _ end => destruct m as [[r|x] w'] eqn:Hrun end;
    settle Hrun.
  split; [reflexivity | split; [vm_compute; reflexivity|]].
  apply (router_500_changes_only_staged_text _ _ _ _ _ Hrun); wit.
Defined.

Lemma start_job_started_witness :
  exists r w', Start.lambda_handler (s3_event "yerttle-tours" "episode1.m4a")
                 (env_ok transcribe_service "2024-01-01T12:00:05") (empty_world audio_store)
               = (Ok r, w') /\ statusCode r = 200.
Proof.
  do 2 eexists. split.
  - apply (start_job_started "yerttle-tours" "episode1.m4a"
             (env_ok transcribe_service "2024-01-01T12:00:05") (empty_world audio_store)
             [("TranscriptionJob", JObj [("TranscriptionJobStatus", JStr "IN_PROGRESS")])]
             (JObj [("TranscriptionJobStatus", JStr "IN_PROGRESS")])); wit.
  - reflexivity.
Defined.

Lemma start_call_failure_status_witness :
  exists r w', Start.lambda_handler (s3_event "yerttle-tours" "episode1.m4a")
                 (env_ok conflict_service "2024-01-01T12:00:05") (empty_world audio_store)
               = (Ok r, w') /\ statusCode r = 409.
Proof.
  destruct (start_call_failure_status "yerttle-tours" "episode1.m4a"
              (env_ok conflict_service "2024-01-01T12:00:05") (empty_world audio_store)
              (ClientError "ConflictException")
              ltac:(wit) ltac:(wit) ltac:(wit) ltac:(wit) ltac:(wit) ltac:(wit)) as [r [Hr Hs]].
  exists r. eexists. split; [exact Hr | exact Hs].
Defined.

Lemma start_rejects_non_m4a_witness :
  Start.lambda_handler (s3_event "yerttle-tours" "episode1.mp3")
    (env_ok transcribe_service "2024-01-01T12:00:05") (empty_world audio_store)
  = (Ok (Completion.err_response 400 "File must be .m4a format"), empty_world audio_store).
Proof. apply start_rejects_non_m4a; wit. Defined.

Lemma start_missing_upload_404_witness :
  Start.lambda_handler (s3_event "yerttle-tours" "episode1.m4a")
    (env_ok transcribe_service "2024-01-01T12:00:05") (empty_world [])
  = (Ok (Completion.err_response 404 "File not found"),
     log (empty_world []) (S3Head "yerttle-tours" "episode1.m4a") false).
Proof.
  apply (start_missing_upload_404 "yerttle-tours" "episode1.m4a"
           (env_ok transcribe_service "2024-01-01T12:00:05") (empty_world [])); wit.
Defined.

Lemma start_extension_any_case_witness :
  ends_with ".m4a" (Start.lower ("episode1" ++ ".M4A")) = true.
Proof. apply (start_extension_any_case "episode1" ".M4A"). reflexivity. Defined.

Lemma completion_not_completed_noop_witness :
  Completion.lambda_handler
    (JObj [("detail", JObj [("JobId", JStr "job-1"); ("JobStatus", JStr "IN_PROGRESS")])])
    unit_env (empty_world two_markers_store)
  = (Ok (mkResponse 200 (JObj [("message", JStr "no action taken"); ("jobId", JStr "job-1")])),
     empty_world two_markers_store).
Proof.
  apply (completion_not_completed_noop
           [("detail", JObj [("JobId", JStr "job-1"); ("JobStatus", JStr "IN_PROGRESS")])]
           [("JobId", JStr "job-1"); ("JobStatus", JStr "IN_PROGRESS")]); wit.
Defined.

Lemma completion_unknown_type_400_witness :
  Completion.lambda_handler
    (JObj [("detail-type", JStr "Comprehend Topic Modeling Job State Change");
           ("detail", JObj [("JobId", JStr "job-1"); ("JobStatus", JStr "COMPLETED")])])
    unit_env (empty_world two_markers_store)
  = (Ok (Completion.err_response 400 "Unknown job type"), empty_world two_markers_store).
Proof.
  apply (completion_unknown_type_400
           [("detail-type", JStr "Comprehend Topic Modeling Job State Change");
            ("detail", JObj [("JobId", JStr "job-1"); ("JobStatus", JStr "COMPLETED")])]
           [("JobId", JStr "job-1"); ("JobStatus", JStr "COMPLETED")] (JStr "job-1")
           "Comprehend Topic Modeling Job State Change"); wit.
Defined.

Lemma job_name_decode_round_trip_witness :
  py_replace (job_prefix Sentiment) "" (job_prefix Sentiment ++ ep_id) = ep_id.
Proof. apply job_name_decode_round_trip. reflexivity. Defined.

Lemma async_metadata_failure_keeps_staged_text_witness :
  exists t, Router.process_asynchronous_analysis "hello world" "episode1-20240101-120005"
              upload_key "yerttle-tours" (env_metadata_fail start_service "2024-01-01T12:00:05")
              (empty_world (upload_store "hello world"))
            = (Ok (Completion.err_response 500 "Asynchronous analysis failed"),
               mkWorld (st_put ("yerttle-tours", input_key "episode1-20240101-120005")
                               (OText "hello world") (upload_store "hello world")) ([] ++ t)).
Proof. apply async_metadata_failure_keeps_staged_text; wit. Defined.

Lemma async_job_ids_recorded_witness :
  exists r w', Router.process_asynchronous_analysis "hello world" "episode1-20240101-120005"
                 upload_key "yerttle-tours" (env_ok start_service "2024-01-01T12:00:05")
                 (empty_world (upload_store "hello world")) = (Ok r, w')
               /\ statusCode r = 202.
Proof.
  destruct (async_job_ids_recorded "hello world" "episode1-20240101-120005" upload_key
              "yerttle-tours" (env_ok start_service "2024-01-01T12:00:05")
              (empty_world (upload_store "hello world")) ltac:(wit) ltac:(wit))
    as [r [w' [meta [Hr [Hs _]]]]].
  exists r, w'. split; [exact Hr | exact Hs].
Defined.

Lemma s3_uri_round_trip_witness :
  urlparse ascii_nfkc ("s3://" ++ "transcribe-out" ++ "/" ++ "job-1.json")
  = Some ("transcribe-out", "/" ++ "job-1.json")
  /\ lstrip_slash ("/" ++ "job-1.json") = "job-1.json".
Proof. apply s3_uri_round_trip; wit. Defined.

Lemma base_name_round_trip_witness :
  Router.base_name "uploads/2024/episode1.m4a" = "episode1".
Proof. exact (proj2 (base_name_round_trip "episode1" "m4a" eq_refl eq_refl) "uploads/2024"). Defined.

Lemma relay_lookup_failure_status_witness :
  exists r w', Relay.lambda_handler (JObj (relay_fields "COMPLETED" "job-1"))
                 (env_ok no_service "2024-01-01T12:10:00") (empty_world relay_store)
               = (Ok r, w') /\ statusCode r = 500.
Proof.
  destruct (relay_lookup_failure_status (relay_fields "COMPLETED" "job-1")
              [("TranscriptionJobName", JStr "job-1"); ("TranscriptionJobStatus", JStr "COMPLETED")]
              "job-1" (ClientError "unavailable") (env_ok no_service "2024-01-01T12:10:00")
              (empty_world relay_store) ltac:(wit) ltac:(wit) ltac:(wit) ltac:(wit) ltac:(wit))
    as [r [Hr Hs]].
  exists r. eexists. split; [exact Hr | exact Hs].
Defined.

Lemma relay_copies_transcript_witness :
  exists r w', Relay.lambda_handler (JObj (relay_fields "COMPLETED" "job-1"))
                 (env_ok relay_media_service "2024-01-01T12:10:00") (empty_world relay_store)
               = (Ok r, w') /\ statusCode r = 200
               /\ st_find ("yerttle-tours", "transcriptions/job-1.json") (objects w')
                  = Some (OJson (transcript_doc "hello world")).
Proof.
  destruct (relay_copies_transcript (relay_fields "COMPLETED" "job-1")
              [("TranscriptionJobName", JStr "job-1"); ("TranscriptionJobStatus", JStr "COMPLETED")]
              "job-1" [("TranscriptionJob", JObj relay_job)] relay_job relay_transcript relay_media
              "transcribe-out" "job-1.json" (transcript_doc "hello world")
              [("results", JObj [("transcripts", JArr [JObj [("transcript", JStr "hello world")]])])]
              [("transcripts", JArr [JObj [("transcript", JStr "hello world")]])]
              [("transcript", JStr "hello world")] [] "hello world"
              (env_ok relay_media_service "2024-01-01T12:10:00") (empty_world relay_store)
              ltac:(wit) ltac:(wit) ltac:(wit) ltac:(wit) ltac:(wit) ltac:(wit) ltac:(wit)
              ltac:(wit) ltac:(wit) ltac:(wit) ltac:(wit) ltac:(wit) ltac:(wit) ltac:(wit)
              ltac:(wit) ltac:(wit) ltac:(wit) ltac:(wit))
    as [r [w' [Hr [Hs Hf]]]].
  exists r, w'. split; [exact Hr | split; [exact Hs | exact Hf]].
Defined.
